(** * The XGBoost container walkthrough: image customization and orchestration

    A shallow embedding of the two programs of the repository:
    - [src/docker_build.sh], the image-customization procedure (bash);
    - [walkthrough.ipynb], the orchestration notebook (Python cells).

    Character strings are [string]; the bash array [BASH_REMATCH] is a
    [gmap nat string]; the local file system is a [gmap string string] from
    path to contents.  The programs the script starts ([aws], [docker]) are
    not part of the repository: each invocation is handed to a function
    [exec] that stands for the outside world and is recorded, with its
    output and exit status, in a log. *)

From Stdlib Require Import Ascii.
From stdpp Require Import strings gmap list.

(** ** Character strings *)

Module Str.

Definition newline : ascii := "010"%char.
Definition tab : ascii := "009"%char.
Definition cr : ascii := "013"%char.
Definition nul : ascii := "000"%char.

Fixpoint take (n : nat) (s : string) : string :=
  match n, s with
  | S n', String c s' => String c (take n' s')
  | _, _ => ""
  end.

Fixpoint drop (n : nat) (s : string) : string :=
  match n, s with
  | S n', String _ s' => drop n' s'
  | _, _ => s
  end.

(** [${s:off:len}] and [${s:off}] for offsets that are not negative. *)
Definition substr (off len : nat) (s : string) : string := take len (drop off s).
Definition substr_from (off : nat) (s : string) : string := drop off s.

Fixpoint occurs (c : ascii) (s : string) : bool :=
  match s with
  | "" => false
  | String d s' => if decide (c = d) then true else occurs c s'
  end.

(** Whether the last character of [s] is [c]. *)
Fixpoint ends_with (c : ascii) (s : string) : bool :=
  match s with
  | "" => false
  | String d "" => bool_decide (c = d)
  | String _ s' => ends_with c s'
  end.

(** [tr -d c]. *)
Fixpoint delete_char (c : ascii) (s : string) : string :=
  match s with
  | "" => ""
  | String d s' => if decide (c = d) then delete_char c s' else String d (delete_char c s')
  end.

Fixpoint strip_trailing_newlines (s : string) : string :=
  match s with
  | "" => ""
  | String c s' =>
      match strip_trailing_newlines s' with
      | "" => if decide (c = newline) then "" else String c ""
      | r => String c r
      end
  end.

Fixpoint lit_nat_go (acc : nat) (s : string) : option nat :=
  match s with
  | "" => Some acc
  | String c s' =>
      match Ascii.is_nat c with
      | Some d => lit_nat_go (10 * acc + d) s'
      | None => None
      end
  end.
(** A non-empty run of decimal digits read as a number. *)
Definition lit_nat (s : string) : option nat :=
  match s with "" => None | _ => lit_nat_go 0 s end.

End Str.

(** ** Regular expressions

    The two patterns of the script use only ordinary characters, [.*] and
    parenthesised groups.  The matcher is a backtracking one in
    continuation-passing style: [.*] first tries to take the whole rest of
    the subject and gives characters back one at a time.  For a pattern that
    is a plain sequence of such items this is the POSIX rule that bash's
    [=~] and [expr]'s [:] follow (the leftmost match, the longest one, each
    item from left to right as long as possible). *)

Module Regex.

Inductive regex : Type :=
  | Eps
  | Chr (c : ascii)
  | AnyStar
  | Group (n : nat) (r : regex)
  | Cat (r1 r2 : regex).

Fixpoint lit (s : string) : regex :=
  match s with
  | "" => Eps
  | String c s' => Cat (Chr c) (lit s')
  end.

Fixpoint anystar {A} (k : string → option A) (s : string) : option A :=
  match s with
  | "" => k ""
  | String _ s' =>
      match anystar k s' with
      | Some x => Some x
      | None => k s
      end
  end.

(** [mtch r s caps k]: match [r] at the start of [s]; [k] receives what is
    left of [s] and the groups captured so far. *)
Fixpoint mtch {A} (r : regex) (s : string) (caps : gmap nat string)
    (k : string → gmap nat string → option A) : option A :=
  match r with
  | Eps => k s caps
  | Chr c =>
      match s with
      | String d s' => if decide (c = d) then k s' caps else None
      | "" => None
      end
  | AnyStar => anystar (λ s', k s' caps) s
  | Group n r' =>
      mtch r' s caps
        (λ s' caps', k s' (<[n := Str.take (String.length s - String.length s') s]> caps'))
  | Cat r1 r2 => mtch r1 s caps (λ s' caps', mtch r2 s' caps' k)
  end.

(** A match anchored at the start of [s]; index 0 holds the matched text. *)
Definition match_here (r : regex) (s : string) : option (gmap nat string) :=
  mtch r s ∅
    (λ s' caps, Some (<[0 := Str.take (String.length s - String.length s') s]> caps)).

(** The leftmost match anywhere in [s]. *)
Fixpoint search (r : regex) (s : string) : option (gmap nat string) :=
  match match_here r s with
  | Some m => Some m
  | None =>
      match s with
      | "" => None
      | String _ s' => search r s'
      end
  end.

End Regex.

(** ** Shell expansions and utilities *)

Module Sh.

(** Command substitution, [$(...)] or backquotes: the output of the command
    without its NUL bytes and without its trailing newlines. *)
Definition comsub (out : string) : string :=
  Str.strip_trailing_newlines (Str.delete_char Str.nul out).

(** A string that command substitution hands on unchanged. *)
Definition survives_comsub (s : string) : bool :=
  negb (Str.occurs Str.nul s) && negb (Str.ends_with Str.newline s).

(** The default [IFS]: space, tab, newline. *)
Definition is_ifs (c : ascii) : bool :=
  bool_decide (c = " "%char) || bool_decide (c = Str.tab) || bool_decide (c = Str.newline).

Definition flush (cur : string) : list string :=
  match cur with "" => [] | _ => [cur] end.

Fixpoint split_fields_go (cur : string) (s : string) : list string :=
  match s with
  | "" => flush cur
  | String c s' =>
      if is_ifs c then flush cur ++ split_fields_go "" s'
      else split_fields_go (cur +:+ String c "") s'
  end.
(** Field splitting of an unquoted expansion. *)
Definition split_fields (s : string) : list string := split_fields_go "" s.

Definition is_glob_char (c : ascii) : bool :=
  bool_decide (c = "*"%char) || bool_decide (c = "?"%char) || bool_decide (c = "["%char).

Fixpoint forallb_str (p : ascii → bool) (s : string) : bool :=
  match s with
  | "" => true
  | String c s' => p c && forallb_str p s'
  end.

(** A non-empty word that an unquoted expansion leaves as it is: no [IFS]
    character to split at, no pattern character to expand. *)
Definition plain_word (w : string) : bool :=
  bool_decide (w ≠ "") && forallb_str (λ c, negb (is_ifs c) && negb (is_glob_char c)) w.

(** [$var] outside quotes: field splitting, then pathname expansion of each
    field.  [glob] is pathname expansion against the current directory. *)
Definition unquoted (glob : string → list string) (s : string) : list string :=
  split_fields s ≫= glob.

(** The [echo] builtin of bash under its default options.  The leading
    words that are a hyphen followed by one or more of the letters [n],
    [e] and [E] are options, read in order: [n] drops the final newline,
    [e] turns the expansion of backslash escapes on and [E] turns it off.
    The first word that is not of that form ends the options and is
    printed like the words after it. *)
Definition is_echo_flag (c : ascii) : bool :=
  bool_decide (c = "n"%char) || bool_decide (c = "e"%char) || bool_decide (c = "E"%char).

Definition echo_option (w : string) : bool :=
  match w with
  | String "-" (String c flags) => forallb_str is_echo_flag (String c flags)
  | _ => false
  end.

Record echo_mode : Type := EchoMode {
  display_return : bool;
  do_v9 : bool }.

Fixpoint echo_set (flags : string) (m : echo_mode) : echo_mode :=
  match flags with
  | "" => m
  | String c flags' =>
      echo_set flags'
        (if decide (c = "n"%char) then EchoMode false (do_v9 m)
         else if decide (c = "e"%char) then EchoMode (display_return m) true
         else if decide (c = "E"%char) then EchoMode (display_return m) false
         else m)
  end.

Fixpoint echo_options (ws : list string) (m : echo_mode) : echo_mode * list string :=
  match ws with
  | [] => (m, [])
  | w :: rest =>
      if echo_option w then echo_options rest (echo_set (Str.drop 1 w) m) else (m, ws)
  end.

Section Echo.
(** The expansion of the backslash escapes of one word, and whether it met
    the escape that ends the output. *)
Context (ansicstr : string → string * bool).

(** The words, a space between two of them; the output stops after a word
    whose expansion says so. *)
Fixpoint echo_words (v9 : bool) (ws : list string) : string * bool :=
  match ws with
  | [] => ("", false)
  | w :: rest =>
      let '(text, stop) := if v9 then ansicstr w else (w, false) in
      if stop then (text, true)
      else match rest with
           | [] => (text, false)
           | _ :: _ =>
               let '(more, stopped) := echo_words v9 rest in
               (text +:+ " " +:+ more, stopped)
           end
  end.

Definition echo (ws : list string) : string :=
  let '(m, rest) := echo_options ws (EchoMode true false) in
  let '(text, stopped) := echo_words (do_v9 m) rest in
  if display_return m && negb stopped then text +:+ String Str.newline "" else text.

End Echo.

(** [expr STRING : PATTERN] for a pattern with a [\(...\)] group: the match
    is anchored at the start of [STRING]; the text of group 1 is printed,
    or nothing when there is no match, and a newline.  (An operand that
    [expr] would read as one of its keywords contains no [.amazon], and the
    line printed is empty in that case as well.) *)
Definition expr_colon (s : string) (pattern : Regex.regex) : string :=
  default "" (Regex.match_here pattern s ≫= (.!! 1)) +:+ String Str.newline "".

(** [[[ s =~ pattern ]]]: the array [BASH_REMATCH] after the test (empty
    when there is no match) and the exit status of the test. *)
Definition rematch (s : string) (pattern : Regex.regex) : gmap nat string * nat :=
  match Regex.search pattern s with
  | Some m => (m, 0)
  | None => (∅, 1)
  end.

(** [${array[i]}]: the empty string for an index that is not set. *)
Definition elem (a : gmap nat string) (i : nat) : string := default "" (a !! i).

(** One invocation of an outside program. *)
Record event : Type := Event {
  ev_argv : list string;
  ev_stdin : option string;
  ev_stdout : string;
  ev_status : nat }.

Record world (Ext : Type) : Type := World {
  w_fs : gmap string string;
  w_ext : Ext;
  w_log : list event }.
Arguments World {Ext} _ _ _.
Arguments w_fs {Ext} _.
Arguments w_ext {Ext} _.
Arguments w_log {Ext} _.

Definition sh (Ext A : Type) : Type := world Ext → A * world Ext.

Definition ret {Ext A} (a : A) : sh Ext A := λ w, (a, w).
Definition bind {Ext A B} (m : sh Ext A) (k : A → sh Ext B) : sh Ext B :=
  λ w, let '(a, w') := m w in k a w'.

(** A path of the script, seen from the directory the notebook runs in. *)
Definition resolve (cwd path : string) : string :=
  match cwd with "" => path | _ => cwd +:+ "/" +:+ path end.

(** [cat path]: the contents of the file; nothing for a file that is not
    there. *)
Definition cat {Ext} (cwd path : string) : sh Ext string :=
  λ w, (default "" (w_fs w !! resolve cwd path), w).

Definition write_file {Ext} (path contents : string) : sh Ext unit :=
  λ w, (tt, World (<[path := contents]> (w_fs w)) (w_ext w) (w_log w)).

Section Run.
Context {Ext : Type}.
Context (exec : list string → option string → Ext → string * nat * Ext).

(** Start an outside program, wait for it, log it. *)
Definition run (argv : list string) (stdin : option string) : sh Ext (string * nat) :=
  λ w,
    let '(out, status, ext') := exec argv stdin (w_ext w) in
    ((out, status), World (w_fs w) ext' (w_log w ++ [Event argv stdin out status])).

End Run.

End Sh.

Notation "x <~ m ;; k" := (Sh.bind m (λ x, k))
  (at level 100, m at level 99, right associativity, only parsing).
Notation "m ;;; k" := (Sh.bind m (λ _, k))
  (at level 100, right associativity, only parsing).

(** ** [src/docker_build.sh] *)

Module DockerBuild.

(** The shell variables of the script when it ends. *)
Record vars : Type := Vars {
  base_image : string;
  namespace : string;
  region : string;
  account : string;
  base_account : string;
  base_region : string;
  BASH_REMATCH : gmap nat string;
  algorithm : string;
  version : string;
  token : string;
  xgboost_path : string;
  fullname : string }.

(** The variable [regex] of line 15: any run of characters, a slash, group 1
    (any run of characters), a colon, group 2 (any run of characters). *)
Definition regex : Regex.regex :=
  Regex.Cat Regex.AnyStar
    (Regex.Cat (Regex.Chr "/")
       (Regex.Cat (Regex.Group 1 Regex.AnyStar)
          (Regex.Cat (Regex.Chr ":") (Regex.Group 2 Regex.AnyStar)))).

(** The pattern of the [expr] line: group 1 (any run of characters), then
    the characters [.amazon]. *)
Definition region_pattern : Regex.regex :=
  Regex.Cat (Regex.Group 1 Regex.AnyStar) (Regex.lit ".amazon").

(** The variables read off the image reference alone (lines 13 to 18). *)
Definition base_account_of (base_image : string) : string :=
  Str.substr 0 12 base_image.
Definition base_region_of (base_image : string) : string :=
  Sh.comsub (Sh.expr_colon (Str.substr_from 21 base_image) region_pattern).
Definition algorithm_of (base_image : string) : string :=
  Sh.elem (Sh.rematch base_image regex).1 1.
Definition version_of (base_image : string) : string :=
  Sh.elem (Sh.rematch base_image regex).1 2.

Definition repository_name (namespace algorithm version : string) : string :=
  namespace +:+ "/" +:+ algorithm +:+ "-" +:+ version.

Section Script.
Context {Ext : Type}.
(** The outside world: what a program prints and returns, given its
    arguments and its standard input, and how it changes the world. *)
Context (exec : list string → option string → Ext → string * nat * Ext).
(** Pathname expansion, the [echo] builtin (the line it prints for its
    argument words) and [base64 -d]. *)
Context (glob : string → list string).
Context (echo : list string → string).
Context (base64_d : string → string).

Local Abbreviation run := (Sh.run exec).
Local Notation "$ x" := (Sh.unquoted glob x) (at level 9, x at level 9).

(** The script, run in directory [cwd] with the positional parameters
    [args].  The [echo] lines that only print a variable are left out: they
    set no variable and start no program. *)
Definition docker_build_sh (cwd : string) (args : list string) : Sh.sh Ext vars :=
  let arg1 := default "" (args !! 0) in
  base_image <~ (if decide (arg1 = "")
                 then f <~ Sh.cat cwd "base_image_uri.txt" ;; Sh.ret (Sh.comsub f)
                 else Sh.ret arg1) ;;
  let namespace := "custom_images" in
  r <~ run ["aws"; "configure"; "get"; "region"] None ;;
  let region := Sh.comsub r.1 in
  a <~ run ["aws"; "sts"; "get-caller-identity"; "--query"; "Account"; "--output"; "text"] None ;;
  let account := Sh.comsub a.1 in
  let base_account := base_account_of base_image in
  let base_region := base_region_of base_image in
  let BASH_REMATCH := (Sh.rematch base_image regex).1 in
  let algorithm := Sh.elem BASH_REMATCH 1 in
  let version := Sh.elem BASH_REMATCH 2 in
  t <~ run (["aws"; "ecr"; "get-authorization-token"; "--region"] ++ $base_account
            ++ ["--registry-ids"] ++ $base_account
            ++ ["--output"; "text"; "--query"; "authorizationData[].authorizationToken"]) None ;;
  let token := Sh.comsub (base64_d (Sh.comsub t.1 +:+ String Str.newline "")) in
  run ["docker"; "login"; "--username"; "AWS"; "--password-stdin";
       base_account +:+ ".dkr.ecr." +:+ base_region +:+ ".amazonaws.com"]
      (Some (echo $(Str.substr_from 4 token))) ;;;
  run ["docker"; "pull"; base_image] None ;;;
  run ["docker"; "tag"; base_image; "base_image"] None ;;;
  f <~ run ["docker"; "run"; "-t"; "base_image"; "find"; "/"; "-name";
            "sagemaker_xgboost_container"] None ;;
  let xgboost_path := Sh.comsub (Str.delete_char Str.cr f.1) in
  run ["docker"; "build"; "--build-arg";
       "xgboost_path=" +:+ xgboost_path +:+ "/algorithm_mode"; "."; "-t"; "custom_image"] None ;;;
  run ["docker"; "logout"] None ;;;
  p <~ run ["aws"; "ecr"; "get-login-password"; "--region"; region] None ;;
  run ["docker"; "login"; "--username"; "AWS"; "--password-stdin";
       account +:+ ".dkr.ecr." +:+ region +:+ ".amazonaws.com"] (Some p.1) ;;;
  d <~ run ["aws"; "ecr"; "describe-repositories"; "--repository-names";
            repository_name namespace algorithm version] None ;;
  (if decide (d.2 ≠ 0)
   then run ["aws"; "ecr"; "create-repository"; "--repository-name";
             repository_name namespace algorithm version] None ;;; Sh.ret ()
   else Sh.ret ()) ;;;
  let fullname := account +:+ ".dkr.ecr." +:+ region +:+ ".amazonaws.com/"
                  +:+ namespace +:+ "/" +:+ algorithm +:+ "-" +:+ version in
  run (["docker"; "tag"; "custom_image"] ++ $fullname) None ;;;
  run (["docker"; "push"] ++ $fullname) None ;;;
  Sh.ret (Vars base_image namespace region account base_account base_region
            BASH_REMATCH algorithm version token xgboost_path fullname).

End Script.

(** The programs started during a run, in order. *)
Definition commands (log : list Sh.event) : list (list string) := Sh.ev_argv <$> log.

Definition is_describe (argv : list string) : bool :=
  bool_decide (take 3 argv = ["aws"; "ecr"; "describe-repositories"]).
Definition is_create (argv : list string) : bool :=
  bool_decide (take 3 argv = ["aws"; "ecr"; "create-repository"]).
Definition is_build (argv : list string) : bool :=
  bool_decide (take 2 argv = ["docker"; "build"]).

(** The values given with [--build-arg] on a command line. *)
Fixpoint build_args (argv : list string) : list string :=
  match argv with
  | a :: rest =>
      match rest with
      | v :: _ => if decide (a = "--build-arg") then v :: build_args rest else build_args rest
      | [] => []
      end
  | [] => []
  end.

(** A [NAME=value] word split at its first equals sign. *)
Fixpoint name_value_go (name : string) (s : string) : string * string :=
  match s with
  | "" => (name, "")
  | String c s' =>
      if decide (c = "="%char) then (name, s') else name_value_go (name +:+ String c "") s'
  end.

(** The build-time parameters of a command line, name and value. *)
Definition build_params (argv : list string) : list (string * string) :=
  name_value_go "" <$> build_args argv.

End DockerBuild.

(** ** [walkthrough.ipynb] *)

Module Walkthrough.

(** [template.format(args)] for templates whose replacement fields are
    empty (numbered in order of appearance) or a decimal index.  [None]
    stands for the exception Python raises (no such argument, a field that
    is not closed, a single closing brace) and for what is not covered
    here (doubled braces, conversions, format specifications). *)
Fixpoint format_go (t : string) (field : option string) (auto : nat) (args : list string)
    : option string :=
  match t with
  | "" => match field with None => Some "" | Some _ => None end
  | String c t' =>
      match field with
      | None =>
          if decide (c = "{"%char) then format_go t' (Some "") auto args
          else if decide (c = "}"%char) then None
          else String c <$> format_go t' None auto args
      | Some name =>
          if decide (c = "}"%char) then
            match name with
            | "" =>
                a ← args !! auto;
                String.app a <$> format_go t' None (S auto) args
            | _ =>
                i ← Str.lit_nat name;
                a ← args !! i;
                String.app a <$> format_go t' None auto args
            end
          else if decide (c = "{"%char) then None
          else format_go t' (Some (name +:+ String c "")) auto args
      end
  end.
Definition format (template : string) (args : list string) : option string :=
  format_go template None 0 args.

(** *** Cell 2: locations *)

Definition data_bucket : string := "sagemaker-sample-files".
Definition data_prefix : string := "datasets/tabular/uci_abalone".
Definition output_prefix : string := "sagemaker/DEMO-xgboost-abalone-default".

(** *** Cell 3: copying the data set *)

Definition data_categories : list string := ["train"; "test"; "validation"].

Definition data_key (data_category : string) : option string :=
  format "{0}/{1}/abalone.{1}" [data_prefix; data_category].
Definition output_key (data_category : string) : option string :=
  format "{0}/{1}/abalone.{1}" [output_prefix; data_category].
Definition data_filename (data_category : string) : option string :=
  format "abalone.{}" [data_category].

Inductive s3_call : Type :=
  | download_file (Bucket Key Filename : string)
  | upload_file (Filename Bucket Key : string).

Section Copy.
Context {S3 : Type}.
(** The object store: [None] when the call raises. *)
Context (s3 : s3_call → S3 → option S3).

(** The store and the calls made so far; a result [None] is an exception
    on its way out of the cell. *)
Definition py (A : Type) : Type := S3 * list s3_call → option A * (S3 * list s3_call).

Definition call (c : s3_call) : py () :=
  λ '(store, calls),
    match s3 c store with
    | Some store' => (Some (), (store', calls ++ [c]))
    | None => (None, (store, calls ++ [c]))
    end.

Definition copy_category (output_bucket data_category : string) : py () :=
  λ st,
    match data_key data_category, output_key data_category, data_filename data_category with
    | Some dk, Some ok, Some fn =>
        match call (download_file data_bucket dk fn) st with
        | (Some _, st') => call (upload_file fn output_bucket ok) st'
        | (None, st') => (None, st')
        end
    | _, _, _ => (None, st)
    end.

Fixpoint for_each (xs : list string) (body : string → py ()) : py () :=
  λ st,
    match xs with
    | [] => (Some (), st)
    | x :: xs' =>
        match body x st with
        | (Some _, st') => for_each xs' body st'
        | (None, st') => (None, st')
        end
    end.

Definition copy_cell (output_bucket : string) : py () :=
  for_each data_categories (copy_category output_bucket).

End Copy.

(** *** Cell 4: the hand-off file, the name of the custom image, the build *)

Definition version : string := "1.2-2".

(** The f-string of line 145. *)
Definition custom_container (account region version : string) : string :=
  account +:+ ".dkr.ecr." +:+ region
  +:+ ".amazonaws.com/custom_images/sagemaker-xgboost-" +:+ version.

Section Build.
Context {Ext : Type}.
Context (exec : list string → option string → Ext → string * nat * Ext).
Context (glob : string → list string).
Context (echo : list string → string).
Context (base64_d : string → string).

(** [account], [region] and [xgboost_container] are what the SDK returned
    in cell 2 and on line 141. *)
Definition build_cell (account region xgboost_container : string)
    : Sh.sh Ext (string * DockerBuild.vars) :=
  Sh.write_file "src/base_image_uri.txt" xgboost_container ;;;
  let custom_container := custom_container account region version in
  v <~ DockerBuild.docker_build_sh exec glob echo base64_d "src" [] ;;
  Sh.ret (custom_container, v).

End Build.

(** *** Cells 5 to 7: the locations handed to the training and transform jobs *)

(** [output_path] of the estimator (line 184). *)
Definition estimator_output_path (output_bucket : string) : string :=
  "s3://" +:+ output_bucket +:+ "/" +:+ output_prefix.

(** The argument of [TrainingInput] on lines 189 and 190. *)
Definition channel_uri (output_bucket channel : string) : option string :=
  format "s3://{}/{}/{}/" [output_bucket; output_prefix; channel].
Definition train_input (output_bucket : string) : option string :=
  channel_uri output_bucket "train".
Definition validation_input (output_bucket : string) : option string :=
  channel_uri output_bucket "validation".

(** The dictionary given to [estimator.fit] (line 193), as a list of
    channel name and location; [None] when a [format] raises. *)
Definition fit_inputs (output_bucket : string) : option (list (string * string)) :=
  t ← train_input output_bucket;
  v ← validation_input output_bucket;
  Some [("train", t); ("validation", v)].

(** [output_path] of the transformer (line 214), the data it is run on
    (line 215) and the file read back (line 235). *)
Definition transformer_output_path (output_bucket : string) : string :=
  "s3://" +:+ output_bucket +:+ "/" +:+ output_prefix +:+ "/results".
Definition transform_data (output_bucket : string) : string :=
  "s3://" +:+ output_bucket +:+ "/" +:+ output_prefix +:+ "/test/abalone.test".
Definition results_file (output_bucket : string) : string :=
  "s3://" +:+ output_bucket +:+ "/" +:+ output_prefix +:+ "/results/abalone.test.out".

End Walkthrough.

(** ** A small outside world to run the script in

    A registry that knows which repositories exist; the account, the
    region and the search result are fixed. *)

Module Demo.

Definition found : string :=
  "/miniconda3/lib/python3.7/site-packages/sagemaker_xgboost_container".

Definition exec (argv : list string) (stdin : option string) (repos : gset string)
    : string * nat * gset string :=
  match argv with
  | ["aws"; "configure"; "get"; "region"] => ("us-west-2" +:+ String Str.newline "", 0, repos)
  | "aws" :: "sts" :: "get-caller-identity" :: _ =>
      ("123456789012" +:+ String Str.newline "", 0, repos)
  | "docker" :: "run" :: _ =>
      (found +:+ String Str.cr (String Str.newline ""), 0, repos)
  | ["aws"; "ecr"; "describe-repositories"; "--repository-names"; name] =>
      if decide (name ∈ repos) then ("", 0, repos) else ("", 254, repos)
  | ["aws"; "ecr"; "create-repository"; "--repository-name"; name] =>
      if decide (name ∈ repos) then ("", 254, repos) else ("", 0, {[name]} ∪ repos)
  | _ => ("", 0, repos)
  end.

(** No file of the directory matches any pattern. *)
Definition glob (w : string) : list string := [w].

Definition echo (ws : list string) : string :=
  foldr (λ w acc, match acc with "" => w | _ => w +:+ " " +:+ acc end) "" ws
  +:+ String Str.newline "".

Definition base64_d (s : string) : string := s.

Definition start (repos : gset string) : Sh.world (gset string) := Sh.World ∅ repos [].

Definition script := DockerBuild.docker_build_sh exec glob echo base64_d.

Definition xgboost_uri : string :=
  "246618743249.dkr.ecr.us-west-2.amazonaws.com/sagemaker-xgboost:1.2-2".

(** The hand-off file as the notebook leaves it. *)
Definition files : gmap string string := {["base_image_uri.txt" := xgboost_uri]}.

(** A reference of the same registry whose repository and tag split the
    name at another hyphen. *)
Definition other_split_uri : string :=
  "246618743249.dkr.ecr.us-west-2.amazonaws.com/sagemaker:xgboost-1.2-2".

(** A reference whose repository is plainly [xgboost]. *)
Definition short_uri : string :=
  "246618743249.dkr.ecr.us-west-2.amazonaws.com/xgboost:1.2-2".

Definition cell :=
  Walkthrough.build_cell exec glob echo base64_d "123456789012" "us-west-2".

(** An object store: the public sample bucket can be read, every upload is
    kept. *)
Definition s3 (c : Walkthrough.s3_call) (store : gset (string * string))
    : option (gset (string * string)) :=
  match c with
  | Walkthrough.download_file b _ _ =>
      if decide (b = Walkthrough.data_bucket) then Some store else None
  | Walkthrough.upload_file _ b k => Some ({[(b, k)]} ∪ store)
  end.

(** A [base64 -d] that always decodes to the user name [AWS], a colon and
    a password. *)
Definition decoded_token (s : string) : string := "AWS:secret".

(** Escape expansion for words that hold no backslash: they stay as they
    are. *)
Definition ansicstr (w : string) : string * bool := (w, false).

(** An object store that takes a given number of calls and then refuses. *)
Definition s3_budget (c : Walkthrough.s3_call) (left : nat) : option nat :=
  match left with
  | 0 => None
  | S n => Some n
  end.

End Demo.

(** ** The segments of a reference, in the words of the specification *)

Module Spec.

(** The position of the last occurrence of [c] in [s]. *)
Fixpoint last_index (c : ascii) (s : string) : option nat :=
  match s with
  | "" => None
  | String d s' =>
      match last_index c s' with
      | Some i => Some (S i)
      | None => if decide (c = d) then Some 0 else None
      end
  end.

(** The segment between the last [a] and the last [b]. *)
Definition between_last (a b : ascii) (s : string) : option string :=
  i ← last_index a s;
  j ← last_index b s;
  if decide (i < j) then Some (Str.substr (S i) (j - S i) s) else None.

(** The segment after the last [b]. *)
Definition after_last (b : ascii) (s : string) : option string :=
  j ← last_index b s;
  Some (Str.drop (S j) s).

Fixpoint starts_with (p s : string) : bool :=
  match p, s with
  | "", _ => true
  | String c p', String d s' => bool_decide (c = d) && starts_with p' s'
  | String _ _, "" => false
  end.

(** The text of [s] before the first occurrence of [needle]. *)
Fixpoint before_first (needle s : string) : option string :=
  if starts_with needle s then Some ""
  else match s with
       | "" => None
       | String c s' => String c <$> before_first needle s'
       end.

Definition contains (needle s : string) : bool :=
  bool_decide (is_Some (before_first needle s)).

(** A reference of the documented shape. *)
Definition ecr_reference (account region path : string) : string :=
  account +:+ ".dkr.ecr." +:+ region +:+ ".amazonaws.com/" +:+ path.

(** The first 12 characters. *)
Definition account_segment (reference : string) : string := Str.take 12 reference.

(** From offset 21 up to, not including, the following [.amazon]. *)
Definition region_segment (reference : string) : option string :=
  before_first ".amazon" (Str.drop 21 reference).

(** The location of an object: [s3://<bucket>/<key>]. *)
Definition s3_uri (bucket key : string) : string := "s3://" +:+ bucket +:+ "/" +:+ key.

(** The calls that copy the three partitions, one download and one upload
    for each of "train", "test" and "validation". *)
Definition copy_calls (output_bucket : string) : list Walkthrough.s3_call :=
  c ← ["train"; "test"; "validation"];
  [Walkthrough.download_file Walkthrough.data_bucket
     (Walkthrough.data_prefix +:+ "/" +:+ c +:+ "/abalone." +:+ c) ("abalone." +:+ c);
   Walkthrough.upload_file ("abalone." +:+ c) output_bucket
     (Walkthrough.output_prefix +:+ "/" +:+ c +:+ "/abalone." +:+ c)].

End Spec.

(** * Properties *)

(** ** Facts about character strings *)

Lemma sapp_nil_r (s : string) : s +:+ "" = s.
Proof. induction s as [|c s IH]; [done|]. by rewrite <- IH at 2. Qed.

Lemma sapp_cons (c : ascii) (a b : string) : String c a +:+ b = String c (a +:+ b).
Proof. done. Qed.

Lemma sapp_assoc (a b c : string) : (a +:+ b) +:+ c = a +:+ b +:+ c.
Proof. induction a as [|d a IH]; [done|]. by rewrite !sapp_cons, IH. Qed.

Lemma slength_app (a b : string) :
  String.length (a +:+ b) = String.length a + String.length b.
Proof. induction a as [|d a IH]; [done|]. rewrite sapp_cons. cbn. by rewrite IH. Qed.

Lemma take_app_length (a b : string) : Str.take (String.length a) (a +:+ b) = a.
Proof. induction a as [|d a IH]; [by destruct b|]. rewrite sapp_cons. cbn. by rewrite IH. Qed.

Lemma drop_app_length (a b : string) : Str.drop (String.length a) (a +:+ b) = b.
Proof. induction a as [|d a IH]; [by destruct b|]. done. Qed.

Lemma drop_app_cons (a b : string) (c : ascii) :
  Str.drop (S (String.length a)) (a +:+ String c b) = b.
Proof. induction a as [|d a IH]; [done|]. done. Qed.

Lemma take_all (s : string) : Str.take (String.length s) s = s.
Proof. rewrite <- (sapp_nil_r s) at 2. apply take_app_length. Qed.

Lemma take_rest (a b : string) :
  Str.take (String.length (a +:+ b) - String.length b) (a +:+ b) = a.
Proof.
  rewrite slength_app. replace (_ + _ - _) with (String.length a) by lia.
  apply take_app_length.
Qed.

Lemma occurs_app (c : ascii) (a b : string) :
  Str.occurs c (a +:+ b) = Str.occurs c a || Str.occurs c b.
Proof.
  induction a as [|d a IH]; [done|]. rewrite sapp_cons. cbn. by destruct (decide (c = d)).
Qed.

Lemma occurs_cons_false (c d : ascii) (s : string) :
  Str.occurs c (String d s) = false → c ≠ d ∧ Str.occurs c s = false.
Proof. cbn. by destruct (decide (c = d)). Qed.

Lemma sapp_eq_app (a b c d : string) :
  a +:+ b = c +:+ d →
  (∃ k, c = a +:+ k ∧ b = k +:+ d) ∨ (∃ k, a = c +:+ k ∧ d = k +:+ b).
Proof.
  revert c. induction a as [|x a IH]; intros c H.
  - left. by exists c.
  - destruct c as [|y c].
    + right. by exists (String x a).
    + rewrite !sapp_cons in H. injection H as -> H.
      destruct (IH _ H) as [(k & -> & ->)|(k & -> & ->)].
      * left. by exists k.
      * right. by exists k.
Qed.

(** ** Facts about the matcher *)

Lemma anystar_fail {A} (k : string → option A) (s : string) :
  (∀ q v, s = q +:+ v → k v = None) → Regex.anystar k s = None.
Proof.
  induction s as [|c s IH]; intros H; cbn.
  - by apply (H "" "").
  - rewrite IH.
    + by apply (H "" (String c s)).
    + intros q v ->. by apply (H (String c q) v).
Qed.

Lemma anystar_self {A} (k : string → option A) (u : string) :
  (∀ c q v, u = String c q +:+ v → k v = None) → Regex.anystar k u = k u.
Proof.
  induction u as [|c u IH]; intros H; [done|]. cbn.
  rewrite IH.
  - by rewrite (H c "" u).
  - intros d q v ->. by apply (H c (String d q) v).
Qed.

(** [.*] stops at the shortest rest that lets the remainder of the pattern
    match. *)
Lemma anystar_first {A} (k : string → option A) (p u : string) (x : A) :
  k u = Some x →
  (∀ c q v, u = String c q +:+ v → k v = None) →
  Regex.anystar k (p +:+ u) = Some x.
Proof.
  intros Hu Hfail. induction p as [|c p IH].
  - change ("" +:+ u) with u. by rewrite anystar_self.
  - rewrite sapp_cons. cbn. by rewrite IH.
Qed.

Lemma anystar_all {A} (k : string → option A) (s : string) (x : A) :
  k "" = Some x → Regex.anystar k s = Some x.
Proof.
  intros H. rewrite <- (sapp_nil_r s). apply anystar_first; [done|].
  intros c q v Heq. destruct q; discriminate.
Qed.

Lemma search_here (r : Regex.regex) (s : string) (m : gmap nat string) :
  Regex.match_here r s = Some m → Regex.search r s = Some m.
Proof. intros H. destruct s; cbn [Regex.search]; by rewrite H. Qed.

(** ** Parsing the image reference (lines 15 to 18) *)

(** What the test of line 16 leaves in [BASH_REMATCH] for a reference that
    ends in a slash, a name without slash, a colon and a tag without
    colon. *)
Lemma rematch_shape (pre name tag : string) :
  Str.occurs "/" name = false →
  Str.occurs ":" tag = false →
  Sh.rematch (pre +:+ "/" +:+ name +:+ ":" +:+ tag) DockerBuild.regex
  = (<[0 := pre +:+ "/" +:+ name +:+ ":" +:+ tag]> (<[2 := tag]> (<[1 := name]> ∅)), 0).
Proof.
  intros Hname Htag. unfold Sh.rematch.
  set (s := pre +:+ "/" +:+ name +:+ ":" +:+ tag).
  assert (Regex.match_here DockerBuild.regex s
          = Some (<[0 := s]> (<[2 := tag]> (<[1 := name]> ∅)))) as Hm.
  { unfold Regex.match_here, DockerBuild.regex. cbn [Regex.mtch].
    apply anystar_first.
    - change ("/" +:+ name +:+ ":" +:+ tag) with (String "/" (name +:+ ":" +:+ tag)).
      cbn [Regex.mtch]. destruct (decide ("/"%char = "/"%char)); [|done].
      apply anystar_first.
      + change (":" +:+ tag) with (String ":" tag).
        destruct (decide (":"%char = ":"%char)); [|done].
        apply anystar_all. f_equal.
        rewrite Nat.sub_0_r, take_all. f_equal.
        rewrite Nat.sub_0_r, take_all. f_equal.
        change (String ":" tag) with (":" +:+ tag). by rewrite take_rest.
      + intros c q v Heq. change (String ":" tag = String c (q +:+ v)) in Heq.
        injection Heq as _ Heq.
        destruct v as [|d v]; [done|].
        rewrite Heq, occurs_app in Htag. apply orb_false_elim in Htag as [_ Hv].
        apply occurs_cons_false in Hv as [Hd _]. by destruct (decide (":"%char = d)).
    - intros c q v Heq.
      change (String "/" (name +:+ ":" +:+ tag) = String c (q +:+ v)) in Heq.
      injection Heq as _ Heq.
      destruct v as [|d v]; [done|]. cbn [Regex.mtch].
      destruct (decide ("/"%char = d)) as [<-|]; [|done].
      apply anystar_fail. intros q' v' ->.
      apply sapp_eq_app in Heq as [(k & -> & Hk)|(k & -> & Hk)].
      + destruct k as [|e k].
        * discriminate Hk.
        * change (String ":" tag = String e (k +:+ String "/" q' +:+ v')) in Hk.
          injection Hk as <- Hk.
          destruct v' as [|d v']; [done|]. cbn [Regex.mtch].
          rewrite Hk, !occurs_app in Htag.
          apply orb_false_elim in Htag as [_ Htag].
          apply orb_false_elim in Htag as [_ Hv].
          apply occurs_cons_false in Hv as [Hd _]. by destruct (decide (":"%char = d)).
      + rewrite occurs_app in Hname. apply orb_false_elim in Hname as [_ Hk'].
        destruct k as [|e k].
        * discriminate Hk.
        * change (String "/" (q' +:+ v') = String e (k +:+ ":" +:+ tag)) in Hk.
          injection Hk as <- _.
          apply occurs_cons_false in Hk' as [? _]. done. }
  by rewrite (search_here _ _ _ Hm).
Qed.

Lemma last_index_none (c : ascii) (s : string) :
  Str.occurs c s = false → Spec.last_index c s = None.
Proof.
  induction s as [|d s IH]; [done|]. intros [Hd Hs]%occurs_cons_false.
  cbn. rewrite IH by done. by destruct (decide (c = d)).
Qed.

Lemma last_index_last (c : ascii) (a b : string) :
  Str.occurs c b = false →
  Spec.last_index c (a +:+ String c b) = Some (String.length a).
Proof.
  intros Hb. induction a as [|d a IH].
  - change ("" +:+ String c b) with (String c b). cbn.
    rewrite last_index_none by done. by destruct (decide (c = c)).
  - rewrite sapp_cons. cbn. by rewrite IH.
Qed.

Lemma algorithm_version_shape (pre name tag : string) :
  Str.occurs "/" name = false →
  Str.occurs ":" tag = false →
  DockerBuild.algorithm_of (pre +:+ "/" +:+ name +:+ ":" +:+ tag) = name
  ∧ DockerBuild.version_of (pre +:+ "/" +:+ name +:+ ":" +:+ tag) = tag.
Proof.
  intros Hname Htag. unfold DockerBuild.algorithm_of, DockerBuild.version_of.
  rewrite rematch_shape by done. done.
Qed.

(** C1.  For a reference that ends in a slash, a name and, after a colon, a
    tag (the name without slash, the tag without slash or colon), the
    pattern of the script yields the name as algorithm and the tag as
    version; these are the segment between the last slash and the last
    colon and the segment after the last colon. *)
Theorem image_reference_parse (pre name tag : string) :
  Str.occurs "/" name = false →
  Str.occurs "/" tag = false →
  Str.occurs ":" tag = false →
  let reference := pre +:+ "/" +:+ name +:+ ":" +:+ tag in
  DockerBuild.algorithm_of reference = name
  ∧ DockerBuild.version_of reference = tag
  ∧ Spec.between_last "/" ":" reference = Some (DockerBuild.algorithm_of reference)
  ∧ Spec.after_last ":" reference = Some (DockerBuild.version_of reference).
Proof.
  intros Hname Hslash Hcolon reference. subst reference.
  destruct (algorithm_version_shape pre name tag Hname Hcolon) as [-> ->].
  split; [done|]. split; [done|].
  set (reference := pre +:+ "/" +:+ name +:+ ":" +:+ tag).
  assert (reference = (pre +:+ String "/" name) +:+ String ":" tag) as Hsplit.
  { unfold reference. by rewrite sapp_assoc. }
  assert (Spec.last_index "/" reference = Some (String.length pre)) as Hi.
  { apply last_index_last. rewrite occurs_app, Hname.
    change (":" +:+ tag) with (String ":" tag). cbn [Str.occurs orb].
    by destruct (decide ("/"%char = ":"%char)). }
  assert (Spec.last_index ":" reference
          = Some (String.length pre + S (String.length name))) as Hj.
  { rewrite Hsplit, last_index_last by done. by rewrite slength_app. }
  unfold Spec.between_last, Spec.after_last. rewrite Hi, Hj. cbn [mbind option_bind].
  rewrite decide_True by lia. split; f_equal.
  - unfold Str.substr.
    replace (String.length pre + S (String.length name) - S (String.length pre))
      with (String.length name) by lia.
    unfold reference.
    change ("/" +:+ name +:+ ":" +:+ tag) with (String "/" (name +:+ ":" +:+ tag)).
    by rewrite drop_app_cons, take_app_length.
  - rewrite Hsplit.
    replace (String.length pre + S (String.length name))
      with (String.length (pre +:+ String "/" name)) by (by rewrite slength_app).
    by rewrite drop_app_cons.
Qed.

(** Any reference that ends in [/xgboost:1.2-2]. *)
Corollary xgboost_reference_parse (pre : string) :
  DockerBuild.algorithm_of (pre +:+ "/xgboost:1.2-2") = "xgboost"
  ∧ DockerBuild.version_of (pre +:+ "/xgboost:1.2-2") = "1.2-2".
Proof. by apply (algorithm_version_shape pre "xgboost" "1.2-2"). Qed.

Lemma match_here_without_slash (s : string) :
  Str.occurs "/" s = false → Regex.match_here DockerBuild.regex s = None.
Proof.
  intros Hs. unfold Regex.match_here, DockerBuild.regex. cbn [Regex.mtch].
  apply anystar_fail. intros q v ->.
  rewrite occurs_app in Hs. apply orb_false_elim in Hs as [_ Hv].
  destruct v as [|d v]; [done|].
  apply occurs_cons_false in Hv as [Hd _]. by destruct (decide ("/"%char = d)).
Qed.

(** A reference without any slash fails the test of line 16. *)
Lemma rematch_without_slash (s : string) :
  Str.occurs "/" s = false → Sh.rematch s DockerBuild.regex = (∅, 1).
Proof.
  intros Hs. unfold Sh.rematch.
  assert (Regex.search DockerBuild.regex s = None) as ->; [|done].
  induction s as [|c s IH].
  - cbn [Regex.search]. by rewrite match_here_without_slash.
  - cbn [Regex.search]. rewrite match_here_without_slash by done.
    apply IH. by apply occurs_cons_false in Hs as [_ ?].
Qed.

Lemma split_last (c : ascii) (s : string) :
  Str.occurs c s = true → ∃ a b, s = a +:+ String c b ∧ Str.occurs c b = false.
Proof.
  induction s as [|d s IH]; [done|]. intros H.
  destruct (Str.occurs c s) eqn:Hs.
  - destruct (IH eq_refl) as (a & b & -> & Hb). by exists (String d a), b.
  - cbn in H. destruct (decide (c = d)) as [->|]; [|congruence]. by exists "", s.
Qed.

Lemma anystar_some {A} (k : string → option A) (s : string) (x : A) :
  Regex.anystar k s = Some x → ∃ q v, s = q +:+ v ∧ k v = Some x.
Proof.
  induction s as [|c s IH]; cbn; intros H.
  - by exists "", "".
  - destruct (Regex.anystar k s) as [y|] eqn:Hs.
    + simplify_eq. destruct (IH eq_refl) as (q & v & -> & Hv). by exists (String c q), v.
    + by exists "", (String c s).
Qed.

Lemma search_some (r : Regex.regex) (s : string) (m : gmap nat string) :
  Regex.search r s = Some m → ∃ q v, s = q +:+ v ∧ Regex.match_here r v = Some m.
Proof.
  induction s as [|c s IH]; cbn [Regex.search]; intros H.
  - destruct (Regex.match_here r "") eqn:Hm; [|done]. simplify_eq. by exists "", "".
  - destruct (Regex.match_here r (String c s)) eqn:Hm.
    + simplify_eq. by exists "", (String c s).
    + destruct (IH H) as (q & v & -> & Hv). by exists (String c q), v.
Qed.

(** Every way of reading a string as text, slash, text, colon, text has a
    reading in which the slash is the last one before the last colon. *)
Lemma reference_decompose (a b c : string) :
  ∃ pre name tag,
    a +:+ "/" +:+ b +:+ ":" +:+ c = pre +:+ "/" +:+ name +:+ ":" +:+ tag
    ∧ Str.occurs "/" name = false
    ∧ Str.occurs ":" tag = false.
Proof.
  assert (∃ b' tag, b +:+ ":" +:+ c = b' +:+ ":" +:+ tag ∧ Str.occurs ":" tag = false)
    as (b' & tag & Hbc & Htag).
  { destruct (Str.occurs ":" c) eqn:Hc.
    - destruct (split_last _ _ Hc) as (c1 & tag & -> & Htag).
      exists (b +:+ ":" +:+ c1), tag. split; [|done]. by rewrite !sapp_assoc.
    - by exists b, c. }
  assert (∃ pre name, a +:+ "/" +:+ b' = pre +:+ "/" +:+ name ∧ Str.occurs "/" name = false)
    as (pre & name & Hab & Hname).
  { destruct (Str.occurs "/" b') eqn:Hb.
    - destruct (split_last _ _ Hb) as (b1 & name & -> & Hname).
      exists (a +:+ "/" +:+ b1), name. split; [|done]. by rewrite !sapp_assoc.
    - by exists a, b'. }
  exists pre, name, tag. split; [|done].
  rewrite Hbc.
  transitivity ((a +:+ "/" +:+ b') +:+ ":" +:+ tag); [by rewrite !sapp_assoc|].
  rewrite Hab. by rewrite !sapp_assoc.
Qed.

(** The test of line 16 succeeds exactly on the strings that hold a slash
    and, somewhere after it, a colon. *)
Lemma rematch_status (s : string) :
  (Sh.rematch s DockerBuild.regex).2 = 0
  ↔ ∃ a b c, s = a +:+ "/" +:+ b +:+ ":" +:+ c.
Proof.
  split.
  - unfold Sh.rematch. destruct (Regex.search DockerBuild.regex s) as [m|] eqn:Hs; [|done].
    intros _. apply search_some in Hs as (q & v & -> & Hm).
    unfold Regex.match_here, DockerBuild.regex in Hm. cbn [Regex.mtch] in Hm.
    apply anystar_some in Hm as (q1 & v1 & -> & Hm).
    destruct v1 as [|d v1]; [done|].
    destruct (decide ("/"%char = d)) as [<-|]; [|done].
    apply anystar_some in Hm as (q2 & v2 & -> & Hm).
    destruct v2 as [|e v2]; [done|].
    destruct (decide (":"%char = e)) as [<-|]; [|done].
    exists (q +:+ q1), q2, v2. by rewrite !sapp_assoc.
  - intros (a & b & c & ->).
    destruct (reference_decompose a b c) as (pre & name & tag & -> & Hname & Htag).
    by rewrite rematch_shape.
Qed.

(** Whenever the test succeeds the match is the whole string, the slash
    taken is the last one that a colon follows, and the colon taken is the
    last one: nothing longer could be given to the items of the pattern,
    taken from left to right. *)
Lemma rematch_groups (s : string) :
  (Sh.rematch s DockerBuild.regex).2 = 0 →
  ∃ pre name tag,
    s = pre +:+ "/" +:+ name +:+ ":" +:+ tag
    ∧ Str.occurs "/" name = false
    ∧ Str.occurs ":" tag = false
    ∧ Sh.elem (Sh.rematch s DockerBuild.regex).1 0 = s
    ∧ DockerBuild.algorithm_of s = name
    ∧ DockerBuild.version_of s = tag.
Proof.
  intros (a & b & c & ->)%rematch_status.
  destruct (reference_decompose a b c) as (pre & name & tag & -> & Hname & Htag).
  exists pre, name, tag. unfold DockerBuild.algorithm_of, DockerBuild.version_of.
  by rewrite rematch_shape.
Qed.

Example rematch_examples :
  Sh.rematch "a/b:c/d" DockerBuild.regex
  = (<[0 := "a/b:c/d"]> (<[2 := "c/d"]> (<[1 := "b"]> ∅)), 0)
  ∧ Sh.rematch "x/na:me:tag" DockerBuild.regex
    = (<[0 := "x/na:me:tag"]> (<[2 := "tag"]> (<[1 := "na:me"]> ∅)), 0)
  ∧ Sh.rematch "a:b/c" DockerBuild.regex = (∅, 1)
  ∧ Sh.rematch "xgboost" DockerBuild.regex = (∅, 1).
Proof. vm_compute. repeat split. Qed.

(** ** Facts about the shell expansions *)

Lemma delete_char_absent (c : ascii) (s : string) :
  Str.occurs c s = false → Str.delete_char c s = s.
Proof.
  induction s as [|d s IH]; [done|]. intros [Hd Hs]%occurs_cons_false.
  cbn. rewrite decide_False by done. by rewrite IH.
Qed.

Lemma strip_no_trailing_newline (s : string) :
  Str.ends_with Str.newline s = false → Str.strip_trailing_newlines s = s.
Proof.
  induction s as [|c s IH]; [done|]. intros H. cbn in *.
  destruct s as [|d s].
  - cbn. apply bool_decide_eq_false in H. rewrite decide_False; [done|]. congruence.
  - rewrite IH by done. done.
Qed.

(** Command substitution leaves a string alone that has no NUL byte and
    does not end in a newline. *)
Lemma comsub_survives (s : string) : Sh.survives_comsub s = true → Sh.comsub s = s.
Proof.
  unfold Sh.survives_comsub, Sh.comsub.
  intros [Hnul Hnl]%andb_true_iff.
  apply negb_true_iff in Hnul. apply negb_true_iff in Hnl.
  rewrite delete_char_absent by done. by apply strip_no_trailing_newline.
Qed.

Lemma split_fields_go_plain (cur s : string) :
  Sh.forallb_str (λ c, negb (Sh.is_ifs c) && negb (Sh.is_glob_char c)) s = true →
  Sh.split_fields_go cur s = Sh.flush (cur +:+ s).
Proof.
  revert cur. induction s as [|c s IH]; intros cur H.
  - by rewrite sapp_nil_r.
  - cbn in H. apply andb_true_iff in H as [Hc Hs].
    apply andb_true_iff in Hc as [Hc _]. apply negb_true_iff in Hc.
    cbn. rewrite Hc, IH by done. by rewrite sapp_assoc.
Qed.

(** ** The account and the region of a reference (lines 13 and 14) *)

Lemma mtch_lit {A} (p s : string) (caps : gmap nat string)
    (k : string → gmap nat string → option A) :
  Regex.mtch (Regex.lit p) s caps k
  = if Spec.starts_with p s then k (Str.drop (String.length p) s) caps else None.
Proof.
  revert s. induction p as [|c p IH]; intros s; [done|].
  cbn [Regex.lit Regex.mtch Spec.starts_with String.length Str.drop].
  destruct s as [|d s]; [done|].
  destruct (decide (c = d)) as [->|Hne].
  - rewrite bool_decide_eq_true_2 by done. apply IH.
  - by rewrite bool_decide_eq_false_2 by done.
Qed.

Lemma contains_suffix (needle q v : string) :
  Spec.contains needle (q +:+ v) = false → Spec.starts_with needle v = false.
Proof.
  unfold Spec.contains. induction q as [|c q IH]; intros H.
  - change ("" +:+ v) with v in H. apply bool_decide_eq_false in H.
    destruct v; cbn [Spec.before_first] in H;
      destruct (Spec.starts_with needle _); [|done| |done];
      destruct H; by eapply mk_is_Some.
  - apply IH. apply bool_decide_eq_false. apply bool_decide_eq_false in H.
    intros [x Hx]. apply H. rewrite sapp_cons. cbn [Spec.before_first].
    destruct (Spec.starts_with needle (String c (q +:+ v))); [by eapply mk_is_Some|].
    rewrite Hx. by eapply mk_is_Some.
Qed.

Lemma before_first_skip (needle s : string) (c : ascii) :
  Spec.starts_with needle (String c s) = false →
  Spec.before_first needle (String c s) = String c <$> Spec.before_first needle s.
Proof. intros H. cbn [Spec.before_first]. by rewrite H. Qed.

Lemma before_first_here (needle s : string) :
  Spec.starts_with needle s = true → Spec.before_first needle s = Some "".
Proof. intros H. destruct s; cbn [Spec.before_first]; by rewrite H. Qed.

Lemma host_tail_no_amazon (path : string) :
  Spec.contains ".amazon" path = false →
  Spec.contains ".amazon" ("amazonaws.com/" +:+ path) = false.
Proof.
  unfold Spec.contains. intros H%bool_decide_eq_false. apply bool_decide_eq_false.
  change ("amazonaws.com/" +:+ path)
    with (String "a" (String "m" (String "a" (String "z" (String "o" (String "n"
         (String "a" (String "w" (String "s" (String "." (String "c" (String "o"
         (String "m" (String "/" path)))))))))))))).
  do 14 (rewrite before_first_skip by (vm_compute; reflexivity)).
  destruct (Spec.before_first ".amazon" path); [|by intros [? ?]].
  destruct H. by eapply mk_is_Some.
Qed.

Lemma strip_snoc_newline (s : string) :
  Str.strip_trailing_newlines (s +:+ String Str.newline "") = Str.strip_trailing_newlines s.
Proof.
  induction s as [|c s IH]; [done|]. rewrite sapp_cons. cbn. by rewrite IH.
Qed.

Lemma delete_char_app (c : ascii) (a b : string) :
  Str.delete_char c (a +:+ b) = Str.delete_char c a +:+ Str.delete_char c b.
Proof.
  induction a as [|d a IH]; [done|]. rewrite sapp_cons. cbn.
  destruct (decide (c = d)); [done|]. by rewrite sapp_cons, IH.
Qed.

(** The output of a command that prints [s] and a newline, substituted. *)
Lemma comsub_line (s : string) :
  Sh.survives_comsub s = true → Sh.comsub (s +:+ String Str.newline "") = s.
Proof.
  intros Hs. rewrite <- (comsub_survives s Hs) at 2. unfold Sh.comsub.
  rewrite delete_char_app.
  change (Str.delete_char Str.nul (String Str.newline "")) with (String Str.newline "").
  apply strip_snoc_newline.
Qed.

Lemma before_first_undotted (region rest : string) :
  Str.occurs "." region = false →
  Spec.before_first ".amazon" (region +:+ rest)
  = String.app region <$> Spec.before_first ".amazon" rest.
Proof.
  induction region as [|c region IH]; intros Hdot.
  - change ("" +:+ rest) with rest. by destruct (Spec.before_first ".amazon" rest).
  - apply occurs_cons_false in Hdot as [Hc Hdot]. rewrite sapp_cons.
    rewrite before_first_skip.
    + rewrite IH by done. by destruct (Spec.before_first ".amazon" rest).
    + cbn [Spec.starts_with]. by rewrite bool_decide_eq_false_2.
Qed.

Lemma region_match (region path : string) :
  Spec.contains ".amazon" path = false →
  Regex.match_here DockerBuild.region_pattern (region +:+ ".amazonaws.com/" +:+ path)
  = Some (<[0 := region +:+ ".amazon"]> (<[1 := region]> ∅)).
Proof.
  intros Hpath. unfold Regex.match_here, DockerBuild.region_pattern. cbn [Regex.mtch].
  apply anystar_first.
  - rewrite mtch_lit.
    change (Spec.starts_with ".amazon" (".amazonaws.com/" +:+ path)) with true.
    cbn match. f_equal.
    change (Str.drop (String.length ".amazon") (".amazonaws.com/" +:+ path))
      with ("aws.com/" +:+ path).
    rewrite take_rest. f_equal.
    change (".amazonaws.com/" +:+ path) with (".amazon" +:+ "aws.com/" +:+ path).
    by rewrite <- sapp_assoc, take_rest.
  - intros c q v Heq.
    change (String "." ("amazonaws.com/" +:+ path) = String c (q +:+ v)) in Heq.
    injection Heq as _ Heq. rewrite mtch_lit.
    rewrite (contains_suffix ".amazon" q v); [done|].
    rewrite <- Heq. by apply host_tail_no_amazon.
Qed.

(** Where the script gets the region right: references of the documented
    shape whose path has no [.amazon] of its own. *)
Lemma region_of_plain_path (account region path : string) :
  String.length account = 12 →
  Str.occurs "." region = false →
  Sh.survives_comsub region = true →
  Spec.contains ".amazon" path = false →
  let reference := Spec.ecr_reference account region path in
  DockerBuild.base_account_of reference = account
  ∧ DockerBuild.base_region_of reference = region
  ∧ Spec.region_segment reference = Some region.
Proof.
  intros Hlen Hdot Hsurv Hpath reference. subst reference.
  unfold Spec.ecr_reference.
  assert (Str.drop 21 (account +:+ ".dkr.ecr." +:+ region +:+ ".amazonaws.com/" +:+ path)
          = region +:+ ".amazonaws.com/" +:+ path) as Hdrop.
  { rewrite <- sapp_assoc.
    replace 21 with (String.length (account +:+ ".dkr.ecr."))
      by (rewrite slength_app, Hlen; done).
    apply drop_app_length. }
  split; [|split].
  - unfold DockerBuild.base_account_of, Str.substr. cbn [Str.drop].
    rewrite <- Hlen. apply take_app_length.
  - unfold DockerBuild.base_region_of, Str.substr_from, Sh.expr_colon. rewrite Hdrop.
    rewrite region_match by done. cbn [mbind option_bind].
    rewrite lookup_insert_ne by done. rewrite lookup_insert_eq. cbn [default from_option id].
    by apply comsub_line.
  - unfold Spec.region_segment. rewrite Hdrop.
    rewrite before_first_undotted by done.
    rewrite before_first_here by done. cbn. by rewrite sapp_nil_r.
Qed.

Lemma base_account_first_12 (reference : string) :
  DockerBuild.base_account_of reference = Spec.account_segment reference.
Proof. done. Qed.

(** C6.  The account is the first 12 characters of the reference.  The
    region is not always the text from offset 21 up to the following
    [.amazon]: the pattern of line 14 takes the longest text it can, so for
    a reference of the documented shape whose repository path holds
    [.amazon] again the script runs on to the last one. *)
Theorem region_of_dotted_path :
  let reference := Spec.ecr_reference "123456789012" "us-west-2" "team.amazon/xgboost:1.2-2" in
  reference = "123456789012.dkr.ecr.us-west-2.amazonaws.com/team.amazon/xgboost:1.2-2"
  ∧ DockerBuild.base_account_of reference = "123456789012"
  ∧ Spec.account_segment reference = "123456789012"
  ∧ Spec.region_segment reference = Some "us-west-2"
  ∧ DockerBuild.base_region_of reference = "us-west-2.amazonaws.com/team".
Proof. vm_compute. repeat split. Qed.

(** ** Runs of the script *)

Section ScriptRuns.
Import DockerBuild.
Context {Ext : Type}.
Context (exec : list string → option string → Ext → string * nat * Ext).
Context (glob : string → list string).
Context (echo : list string → string).
Context (base64_d : string → string).

(** Pathname expansion leaves a word without pattern characters alone. *)
Hypothesis glob_plain : ∀ w, Sh.plain_word w = true → glob w = [w].

Local Abbreviation script := (docker_build_sh exec glob echo base64_d).
Local Abbreviation build_cell := (Walkthrough.build_cell exec glob echo base64_d).

(** An unquoted expansion of a plain word is that word. *)
Lemma unquoted_plain (w : string) : Sh.plain_word w = true → Sh.unquoted glob w = [w].
Proof.
  intros Hw. unfold Sh.unquoted, Sh.split_fields.
  pose proof Hw as [Hne Hall]%andb_true_iff. apply bool_decide_eq_true in Hne.
  rewrite split_fields_go_plain by done.
  change ("" +:+ w) with w.
  destruct w as [|c w]; [done|]. change (Sh.flush (String c w)) with [String c w].
  change ([String c w] ≫= glob) with (glob (String c w) ++ []).
  rewrite glob_plain by done. done.
Qed.

Lemma rematch_fail (s : string) (r : Regex.regex) :
  (Sh.rematch s r).2 ≠ 0 → Sh.rematch s r = (∅, 1).
Proof. unfold Sh.rematch. by destruct (Regex.search r s). Qed.

Ltac step_exec :=
  match goal with
  | |- context [exec ?a ?i ?e] =>
      let o := fresh "out" in let st := fresh "status" in let e' := fresh "ext" in
      destruct (exec a i e) as [[o st] e']
  end.

Ltac run_steps :=
  cbv beta iota zeta delta
    [Walkthrough.build_cell docker_build_sh Sh.bind Sh.run Sh.ret Sh.cat Sh.write_file
       Sh.w_log Sh.w_fs Sh.w_ext fst snd];
  repeat (first [ step_exec
                | match goal with |- context [decide ?P] => destruct (decide P) end ];
          cbv beta iota zeta delta [Sh.w_log Sh.w_fs Sh.w_ext fst snd]).

(** The run is named, executed once, and its result put back for every
    place of the goal that mentions it. *)
Ltac run_script :=
  try (let run := fresh "run" in
       let Hrun := fresh "Hrun" in
       lazymatch goal with
       | |- context [Walkthrough.build_cell exec glob ?ec ?b ?a ?r ?u ?w] =>
           remember (Walkthrough.build_cell exec glob ec b a r u w) as run eqn:Hrun
       | |- context [docker_build_sh exec glob ?ec ?b ?cwd ?args ?w] =>
           remember (docker_build_sh exec glob ec b cwd args w) as run eqn:Hrun
       end;
       revert Hrun; run_steps; intros ->);
  run_steps.

(** C3.  In every run the existence check of line 42 is made; the
    repository is created if and only if the exit status of that check is
    not zero: the creation of line 46 then follows the check immediately,
    and with a status of zero no creation is attempted anywhere in the
    run. *)
Theorem create_iff_check_fails fs ext cwd args :
  let r := script cwd args (Sh.World fs ext []) in
  let v := r.1 in
  let name := repository_name (namespace v) (algorithm v) (version v) in
  ∃ (before : list Sh.event) (check : Sh.event) (after : list Sh.event),
    Sh.w_log r.2 = before ++ check :: after
    ∧ Sh.ev_argv check
      = ["aws"; "ecr"; "describe-repositories"; "--repository-names"; name]
    ∧ Forall (λ e, is_create (Sh.ev_argv e) = false ∧ is_describe (Sh.ev_argv e) = false)
        before
    ∧ commands after
      = (if decide (Sh.ev_status check = 0) then []
         else [["aws"; "ecr"; "create-repository"; "--repository-name"; name]])
        ++ [["docker"; "tag"; "custom_image"] ++ Sh.unquoted glob (fullname v);
            ["docker"; "push"] ++ Sh.unquoted glob (fullname v)]
    ∧ (Exists (λ e, is_create (Sh.ev_argv e) = true) (Sh.w_log r.2)
       ↔ Sh.ev_status check ≠ 0).
Proof.
  intros r v name. subst name v r.
  run_script.
  all: rewrite <- ?app_assoc; cbn [app].
  all: eexists (take 11 _), _, (drop 12 _).
  all: split; [symmetry; apply take_drop_middle; reflexivity|].
  all: cbn [take drop Sh.ev_argv Sh.ev_status].
  all: split; [reflexivity|].
  all: split; [repeat (constructor; [done|]); constructor|].
  all: split; [by destruct (decide _)|].
  all: split.
  all: try done.
  - intros _. do 12 apply Exists_cons_tl. by apply Exists_cons_hd.
  - intros H. repeat (apply Exists_cons in H as [H|H]; [discriminate H|]).
    by apply Exists_nil in H.
  - intros _. do 12 apply Exists_cons_tl. by apply Exists_cons_hd.
  - intros H. repeat (apply Exists_cons in H as [H|H]; [discriminate H|]).
    by apply Exists_nil in H.
Qed.

(** C2, as amended.  The build of line 33 directly follows the search of
    line 31 and is the only build of the run.  It is given one build-time
    parameter, [xgboost_path], whose value is the located path (the output
    of the search without carriage returns and trailing newlines) followed
    by [/algorithm_mode]. *)
Theorem build_argument fs ext cwd args :
  let r := script cwd args (Sh.World fs ext []) in
  let v := r.1 in
  ∃ (before : list Sh.event) (search build : Sh.event) (after : list Sh.event),
    Sh.w_log r.2 = before ++ search :: build :: after
    ∧ Sh.ev_argv search
      = ["docker"; "run"; "-t"; "base_image"; "find"; "/"; "-name";
         "sagemaker_xgboost_container"]
    ∧ xgboost_path v = Sh.comsub (Str.delete_char Str.cr (Sh.ev_stdout search))
    ∧ Sh.ev_argv build
      = ["docker"; "build"; "--build-arg";
         "xgboost_path=" +:+ xgboost_path v +:+ "/algorithm_mode"; "."; "-t"; "custom_image"]
    ∧ build_params (Sh.ev_argv build)
      = [("xgboost_path", xgboost_path v +:+ "/algorithm_mode")]
    ∧ Forall (λ e, is_build (Sh.ev_argv e) = false) (before ++ after).
Proof.
  intros r v. subst v r.
  run_script.
  all: rewrite <- ?app_assoc; cbn [app].
  all: lazymatch goal with
       | |- ∃ before search build after, ?L = _ ∧ _ =>
           exists (take 6 L); do 2 eexists; exists (drop 8 L)
       end.
  all: cbn [take drop app].
  all: split; [reflexivity|].
  all: cbn [Sh.ev_argv Sh.ev_stdout].
  all: do 4 (split; [reflexivity|]).
  all: repeat (constructor; [done|]); constructor.
Qed.

(** C5.  When the test of line 16 fails, [BASH_REMATCH] is empty, so
    [algorithm] and [version] are empty; the run goes on all the same, asks
    for the repository [custom_images/-] and ends by tagging and pushing
    the name built from the empty variables. *)
Theorem no_match_continues fs ext cwd args :
  let r := script cwd args (Sh.World fs ext []) in
  let v := r.1 in
  (Sh.rematch (base_image v) regex).2 ≠ 0 →
  BASH_REMATCH v = ∅
  ∧ algorithm v = ""
  ∧ version v = ""
  ∧ fullname v = account v +:+ ".dkr.ecr." +:+ region v +:+ ".amazonaws.com/custom_images/-"
  ∧ ["aws"; "ecr"; "describe-repositories"; "--repository-names"; "custom_images/-"]
    ∈ commands (Sh.w_log r.2)
  ∧ ∃ front,
      11 ≤ length front
      ∧ commands (Sh.w_log r.2)
        = front ++ [["docker"; "tag"; "custom_image"] ++ Sh.unquoted glob (fullname v);
                    ["docker"; "push"] ++ Sh.unquoted glob (fullname v)].
Proof.
  intros r v. subst v r.
  run_script.
  all: rewrite <- ?app_assoc; cbn [app].
  all: cbn [base_image BASH_REMATCH algorithm version fullname account region].
  all: intros H; rewrite (rematch_fail _ _ H).
  all: do 4 (split; [reflexivity|]).
  all: split; [cbn; repeat first [apply list_elem_of_here | apply list_elem_of_further]|].
  all: lazymatch goal with
       | |- ∃ front, _ ∧ commands ?L = _ =>
           exists (commands (take (length L - 2) L))
       end.
  all: split; [cbn; lia | reflexivity].
Qed.

(** C8.  The name under which the rebuilt image is tagged and pushed is
    [<account>.dkr.ecr.<region>.amazonaws.com/custom_images/<algorithm>-<version>]:
    the variable [fullname] is exactly that, with the account and the
    region the [aws] commands of lines 11 and 12 printed and the algorithm
    and version parsed from the reference; the last two commands of every
    run tag and push [$fullname], which is that very name as one argument
    whenever it is a plain word. *)
Theorem pushed_name fs ext cwd args :
  let r := script cwd args (Sh.World fs ext []) in
  let v := r.1 in
  fullname v
  = account v +:+ ".dkr.ecr." +:+ region v +:+ ".amazonaws.com/custom_images/"
    +:+ algorithm v +:+ "-" +:+ version v
  ∧ (∃ (e_region e_account : Sh.event) (rest : list Sh.event),
       Sh.w_log r.2 = e_region :: e_account :: rest
       ∧ Sh.ev_argv e_region = ["aws"; "configure"; "get"; "region"]
       ∧ region v = Sh.comsub (Sh.ev_stdout e_region)
       ∧ Sh.ev_argv e_account
         = ["aws"; "sts"; "get-caller-identity"; "--query"; "Account"; "--output"; "text"]
       ∧ account v = Sh.comsub (Sh.ev_stdout e_account))
  ∧ algorithm v = algorithm_of (base_image v)
  ∧ version v = version_of (base_image v)
  ∧ (∃ front,
       commands (Sh.w_log r.2)
       = front ++ [["docker"; "tag"; "custom_image"] ++ Sh.unquoted glob (fullname v);
                   ["docker"; "push"] ++ Sh.unquoted glob (fullname v)])
  ∧ (Sh.plain_word (fullname v) = true →
     ∃ front,
       commands (Sh.w_log r.2)
       = front ++ [["docker"; "tag"; "custom_image"; fullname v];
                   ["docker"; "push"; fullname v]]).
Proof.
  intros r v. subst v r.
  run_script.
  all: rewrite <- ?app_assoc; cbn [app].
  all: cbn [base_image BASH_REMATCH algorithm version fullname account region].
  all: split; [reflexivity|].
  all: split; [do 3 eexists; split; [reflexivity|]; by cbn|].
  all: do 2 (split; [reflexivity|]).
  all: split.
  all: try (intros Hw; rewrite (unquoted_plain _ Hw)).
  all: lazymatch goal with
       | |- ∃ front, commands ?L = _ =>
           exists (commands (take (length L - 2) L)); reflexivity
       end.
Qed.

(** C7.  A first argument that is not empty is the base image reference.
    Without arguments the reference is the contents of
    [base_image_uri.txt] as the backquotes of line 5 hand them on, which
    are the contents themselves for every string without NUL byte and
    without final newline, as every image reference is.  The notebook
    writes the reference string unchanged to that file before it starts
    the script without arguments, so that the script then uses exactly the
    reference string the notebook wrote. *)
Theorem base_image_source fs ext cwd args account0 region0 xgboost_container :
  let v := (script cwd args (Sh.World fs ext [])).1 in
  let nb := build_cell account0 region0 xgboost_container (Sh.World fs ext []) in
  (∀ a, args !! 0 = Some a → a ≠ "" → base_image v = a)
  ∧ (∀ contents, args = [] → fs !! Sh.resolve cwd "base_image_uri.txt" = Some contents →
       base_image v = Sh.comsub contents
       ∧ (Sh.survives_comsub contents = true → base_image v = contents))
  ∧ Sh.w_fs nb.2 !! "src/base_image_uri.txt" = Some xgboost_container
  ∧ base_image nb.1.2 = Sh.comsub xgboost_container
  ∧ (Sh.survives_comsub xgboost_container = true → base_image nb.1.2 = xgboost_container).
Proof.
  intros v nb. subst v nb.
  split; [|split].
  - intros a Ha Hne. run_script.
    all: cbn [base_image]; rewrite Ha in *; cbn in *; congruence.
  - intros contents -> Hfile. run_script.
    all: cbn [base_image]; try done.
    all: rewrite Hfile; cbn [default from_option]; split; [done|apply comsub_survives].
  - run_script.
    all: cbn [base_image Sh.w_fs]; try done.
    all: change (Sh.resolve "src" "base_image_uri.txt") with "src/base_image_uri.txt".
    all: rewrite lookup_insert_eq; cbn [default from_option id].
    all: split; [done|]; split; [done|apply comsub_survives].
Qed.

(** C10, as amended.  With the same account and region on both sides, the
    name the notebook builds equals the name the script pushes exactly when
    [sagemaker-xgboost-<version>] equals [<algorithm>-<parsed version>];
    that is so in particular when the algorithm parses to
    [sagemaker-xgboost] and the version to the notebook's. *)
Theorem custom_container_agreement fs ext account0 region0 xgboost_container :
  let nb := build_cell account0 region0 xgboost_container (Sh.World fs ext []) in
  let custom_container := nb.1.1 in
  let v := nb.1.2 in
  custom_container
  = account0 +:+ ".dkr.ecr." +:+ region0
    +:+ ".amazonaws.com/custom_images/sagemaker-xgboost-" +:+ Walkthrough.version
  ∧ (account0 = account v → region0 = region v →
     (custom_container = fullname v
      ↔ "sagemaker-xgboost-" +:+ Walkthrough.version = algorithm v +:+ "-" +:+ version v)
     ∧ (algorithm v = "sagemaker-xgboost" → version v = Walkthrough.version →
        custom_container = fullname v)).
Proof.
  intros nb custom_container v. subst v custom_container nb.
  run_script.
  all: cbn [algorithm version fullname account region].
  all: split; [reflexivity|].
  all: intros -> ->.
  all: unfold Walkthrough.custom_container.
  all: match goal with
       | |- (?a +:+ ?d +:+ ?r +:+ _ = _ ↔ _) ∧ _ =>
           assert (∀ x y, a +:+ d +:+ r +:+ ".amazonaws.com/custom_images/" +:+ x
                          = a +:+ d +:+ r +:+ ".amazonaws.com/custom_images/" +:+ y
                          ↔ x = y) as Hinj
       end.
  all: try (intros x y; split; [|by intros ->]; intros Heq;
            by do 4 apply String.app_inj in Heq).
  all: split; [apply Hinj|].
  all: intros Ha Hv; apply Hinj; by rewrite Ha, Hv.
Qed.

End ScriptRuns.

(** ** The notebook *)

Section Notebook.
Import Walkthrough.

Lemma format_key (p c : string) :
  format "{0}/{1}/abalone.{1}" [p; c] = Some (p +:+ "/" +:+ c +:+ "/abalone." +:+ c).
Proof.
  transitivity (Some (p +:+ "/" +:+ c +:+ "/abalone." +:+ c +:+ "")).
  - vm_compute. reflexivity.
  - by rewrite sapp_nil_r.
Qed.

Lemma format_filename (c : string) : format "abalone.{}" [c] = Some ("abalone." +:+ c).
Proof.
  transitivity (Some ("abalone." +:+ c +:+ "")).
  - vm_compute. reflexivity.
  - by rewrite sapp_nil_r.
Qed.

(** C9.  The keys composed for a category are the prefix, the category and
    [abalone.<category>]; the loop runs over "train", "test" and
    "validation" and makes no call but the download and the upload of
    these three, all six of them when none raises. *)
Theorem copy_three_categories :
  (∀ c, data_key c = Some (data_prefix +:+ "/" +:+ c +:+ "/abalone." +:+ c)
        ∧ output_key c = Some (output_prefix +:+ "/" +:+ c +:+ "/abalone." +:+ c))
  ∧ data_categories = ["train"; "test"; "validation"]
  ∧ ∀ (S3 : Type) (s3 : s3_call → S3 → option S3) (store : S3) (output_bucket : string),
      let r := copy_cell s3 output_bucket (store, []) in
      r.2.2 `prefix_of` Spec.copy_calls output_bucket
      ∧ (r.1 = Some () → r.2.2 = Spec.copy_calls output_bucket).
Proof.
  split; [|split; [done|]].
  - intros c. unfold data_key, output_key. by rewrite !format_key.
  - intros S3 s3 store output_bucket r. subst r.
    unfold copy_cell, data_categories, copy_category, data_key, output_key, data_filename.
    cbn [for_each]. rewrite !format_key, !format_filename.
    unfold call, Spec.copy_calls. cbn [mbind list_bind app].
    repeat (match goal with |- context [s3 ?c ?st] => destruct (s3 c st) end;
            cbn [fst snd app]).
    all: split; [by eexists | intros; first [discriminate | reflexivity]].
Qed.

End Notebook.

(** ** The properties on concrete runs *)

Lemma demo_glob_plain : ∀ w, Sh.plain_word w = true → Demo.glob w = [w].
Proof. done. Qed.

(** A run on the reference the SDK returns, against an empty registry. *)
Example demo_run_commands :
  DockerBuild.commands (Sh.w_log (Demo.script "" [Demo.xgboost_uri] (Demo.start ∅)).2)
  = [["aws"; "configure"; "get"; "region"];
     ["aws"; "sts"; "get-caller-identity"; "--query"; "Account"; "--output"; "text"];
     ["aws"; "ecr"; "get-authorization-token"; "--region"; "246618743249";
      "--registry-ids"; "246618743249"; "--output"; "text"; "--query";
      "authorizationData[].authorizationToken"];
     ["docker"; "login"; "--username"; "AWS"; "--password-stdin";
      "246618743249.dkr.ecr.us-west-2.amazonaws.com"];
     ["docker"; "pull"; Demo.xgboost_uri];
     ["docker"; "tag"; Demo.xgboost_uri; "base_image"];
     ["docker"; "run"; "-t"; "base_image"; "find"; "/"; "-name";
      "sagemaker_xgboost_container"];
     ["docker"; "build"; "--build-arg";
      "xgboost_path=" +:+ Demo.found +:+ "/algorithm_mode";
      "."; "-t"; "custom_image"];
     ["docker"; "logout"];
     ["aws"; "ecr"; "get-login-password"; "--region"; "us-west-2"];
     ["docker"; "login"; "--username"; "AWS"; "--password-stdin";
      "123456789012.dkr.ecr.us-west-2.amazonaws.com"];
     ["aws"; "ecr"; "describe-repositories"; "--repository-names";
      "custom_images/sagemaker-xgboost-1.2-2"];
     ["aws"; "ecr"; "create-repository"; "--repository-name";
      "custom_images/sagemaker-xgboost-1.2-2"];
     ["docker"; "tag"; "custom_image";
      "123456789012.dkr.ecr.us-west-2.amazonaws.com/custom_images/sagemaker-xgboost-1.2-2"];
     ["docker"; "push";
      "123456789012.dkr.ecr.us-west-2.amazonaws.com/custom_images/sagemaker-xgboost-1.2-2"]].
Proof. vm_compute. reflexivity. Qed.

(** A second run finds the repository the first one created and does not
    create it again. *)
Example rerun_creates_nothing :
  let first := Demo.script "" [Demo.xgboost_uri] (Demo.start ∅) in
  let second := Demo.script "" [Demo.xgboost_uri] (Demo.start (Sh.w_ext first.2)) in
  Sh.w_ext first.2 = {["custom_images/sagemaker-xgboost-1.2-2"]}
  ∧ filter (λ argv, DockerBuild.is_create argv = true) (DockerBuild.commands (Sh.w_log first.2))
    = [["aws"; "ecr"; "create-repository"; "--repository-name";
        "custom_images/sagemaker-xgboost-1.2-2"]]
  ∧ filter (λ argv, DockerBuild.is_create argv = true) (DockerBuild.commands (Sh.w_log second.2))
    = [].
Proof. vm_compute. repeat split. Qed.

Lemma image_reference_parse_witness :
  Str.occurs "/" "xgboost" = false
  ∧ Str.occurs "/" "1.2-2" = false
  ∧ Str.occurs ":" "1.2-2" = false
  ∧ DockerBuild.algorithm_of
      ("246618743249.dkr.ecr.us-west-2.amazonaws.com" +:+ "/" +:+ "xgboost" +:+ ":" +:+ "1.2-2")
    = "xgboost"
  ∧ DockerBuild.version_of
      ("246618743249.dkr.ecr.us-west-2.amazonaws.com" +:+ "/" +:+ "xgboost" +:+ ":" +:+ "1.2-2")
    = "1.2-2".
Proof.
  pose proof (image_reference_parse "246618743249.dkr.ecr.us-west-2.amazonaws.com"
                "xgboost" "1.2-2" eq_refl eq_refl eq_refl) as H.
  cbv zeta in H. destruct H as (Ha & Hv & _).
  exact (conj eq_refl (conj eq_refl (conj eq_refl (conj Ha Hv)))).
Defined.

(** The claim C2 at a concrete run: the path located is
    [.../sagemaker_xgboost_container]; the value of the one build-time
    parameter is not that path. *)
Lemma build_argument_not_located_path :
  DockerBuild.xgboost_path (Demo.script "" [Demo.xgboost_uri] (Demo.start ∅)).1 = Demo.found
  ∧ DockerBuild.build_params
      <$> filter (λ argv, DockerBuild.is_build argv = true)
            (DockerBuild.commands (Sh.w_log (Demo.script "" [Demo.xgboost_uri] (Demo.start ∅)).2))
    = [[("xgboost_path", Demo.found +:+ "/algorithm_mode")]]
  ∧ DockerBuild.build_params
      <$> filter (λ argv, DockerBuild.is_build argv = true)
            (DockerBuild.commands (Sh.w_log (Demo.script "" [Demo.xgboost_uri] (Demo.start ∅)).2))
    ≠ [[("xgboost_path", Demo.found)]].
Proof. vm_compute. repeat split. discriminate. Qed.

Lemma create_iff_check_fails_witness :
  ∃ (before : list Sh.event) (check : Sh.event) (after : list Sh.event),
    Sh.w_log (Demo.script "" [Demo.xgboost_uri] (Demo.start ∅)).2 = before ++ check :: after
    ∧ Sh.ev_status check ≠ 0
    ∧ Exists (λ e, DockerBuild.is_create (Sh.ev_argv e) = true)
        (Sh.w_log (Demo.script "" [Demo.xgboost_uri] (Demo.start ∅)).2).
Proof.
  pose proof (create_iff_check_fails Demo.exec Demo.glob Demo.echo Demo.base64_d
                ∅ ∅ "" [Demo.xgboost_uri]) as H.
  cbv zeta in H. destruct H as (before & check & after & Hlog & Hargv & _ & _ & Hiff).
  exists before, check, after. split; [exact Hlog|].
  assert (Exists (λ e, DockerBuild.is_create (Sh.ev_argv e) = true)
            (Sh.w_log (Demo.script "" [Demo.xgboost_uri] (Demo.start ∅)).2)) as Hex.
  { vm_compute. do 12 apply Exists_cons_tl. apply Exists_cons_hd. reflexivity. }
  split; [exact (proj1 Hiff Hex) | exact Hex].
Defined.

Lemma no_match_continues_witness :
  (Sh.rematch
     (DockerBuild.base_image (Demo.script "" ["xgboost"] (Demo.start ∅)).1)
     DockerBuild.regex).2 ≠ 0
  ∧ DockerBuild.algorithm (Demo.script "" ["xgboost"] (Demo.start ∅)).1 = ""
  ∧ DockerBuild.version (Demo.script "" ["xgboost"] (Demo.start ∅)).1 = ""
  ∧ ["aws"; "ecr"; "describe-repositories"; "--repository-names"; "custom_images/-"]
    ∈ DockerBuild.commands (Sh.w_log (Demo.script "" ["xgboost"] (Demo.start ∅)).2).
Proof.
  assert ((Sh.rematch
             (DockerBuild.base_image (Demo.script "" ["xgboost"] (Demo.start ∅)).1)
             DockerBuild.regex).2 ≠ 0) as Hfail.
  { vm_compute. discriminate. }
  pose proof (no_match_continues Demo.exec Demo.glob Demo.echo Demo.base64_d
                ∅ ∅ "" ["xgboost"]) as H.
  cbv zeta in H. destruct (H Hfail) as (_ & Ha & Hv & _ & Hd & _).
  exact (conj Hfail (conj Ha (conj Hv Hd))).
Defined.

Lemma base_image_source_witness :
  (["repo/xgboost:1"] : list string) !! 0 = Some "repo/xgboost:1"
  ∧ "repo/xgboost:1" ≠ ""
  ∧ DockerBuild.base_image (Demo.script "" ["repo/xgboost:1"] (Sh.World Demo.files ∅ [])).1
    = "repo/xgboost:1"
  ∧ Demo.files !! Sh.resolve "" "base_image_uri.txt" = Some Demo.xgboost_uri
  ∧ Sh.survives_comsub Demo.xgboost_uri = true
  ∧ DockerBuild.base_image (Demo.script "" [] (Sh.World Demo.files ∅ [])).1
    = Demo.xgboost_uri
  ∧ DockerBuild.base_image (Demo.cell Demo.xgboost_uri (Demo.start ∅)).1.2
    = Demo.xgboost_uri.
Proof.
  pose proof (base_image_source Demo.exec Demo.glob Demo.echo Demo.base64_d
                Demo.files ∅ "" ["repo/xgboost:1"] "123456789012" "us-west-2"
                Demo.xgboost_uri) as Hargument.
  pose proof (base_image_source Demo.exec Demo.glob Demo.echo Demo.base64_d
                Demo.files ∅ "" [] "123456789012" "us-west-2"
                Demo.xgboost_uri) as Hfile.
  pose proof (base_image_source Demo.exec Demo.glob Demo.echo Demo.base64_d
                ∅ ∅ "" [] "123456789012" "us-west-2"
                Demo.xgboost_uri) as Hnotebook.
  cbv zeta in Hargument, Hfile, Hnotebook.
  destruct Hargument as (Harg & _).
  destruct Hfile as (_ & Hcontents & _).
  destruct Hnotebook as (_ & _ & _ & _ & Hnb).
  assert ("repo/xgboost:1" ≠ "") as Hne by discriminate.
  assert (Demo.files !! Sh.resolve "" "base_image_uri.txt" = Some Demo.xgboost_uri)
    as Hlookup by reflexivity.
  exact (conj eq_refl (conj Hne (conj (Harg _ eq_refl Hne)
           (conj Hlookup (conj eq_refl
              (conj (proj2 (Hcontents _ eq_refl Hlookup) eq_refl) (Hnb eq_refl))))))).
Defined.

Lemma pushed_name_witness :
  (∀ w, Sh.plain_word w = true → Demo.glob w = [w])
  ∧ Sh.plain_word
      (DockerBuild.fullname (Demo.script "" [Demo.xgboost_uri] (Demo.start ∅)).1) = true
  ∧ ∃ front,
      DockerBuild.commands (Sh.w_log (Demo.script "" [Demo.xgboost_uri] (Demo.start ∅)).2)
      = front
        ++ [["docker"; "tag"; "custom_image";
             DockerBuild.fullname (Demo.script "" [Demo.xgboost_uri] (Demo.start ∅)).1];
            ["docker"; "push";
             DockerBuild.fullname (Demo.script "" [Demo.xgboost_uri] (Demo.start ∅)).1]].
Proof.
  assert (Sh.plain_word
            (DockerBuild.fullname (Demo.script "" [Demo.xgboost_uri] (Demo.start ∅)).1)
          = true) as Hplain.
  { vm_compute. reflexivity. }
  pose proof (pushed_name Demo.exec Demo.glob Demo.echo Demo.base64_d demo_glob_plain
                ∅ ∅ "" [Demo.xgboost_uri]) as H.
  cbv zeta in H. destruct H as (_ & _ & _ & _ & _ & H).
  exact (conj demo_glob_plain (conj Hplain (H Hplain))).
Defined.

Lemma copy_three_categories_witness :
  (Walkthrough.copy_cell Demo.s3 "my-bucket" (∅, [])).1 = Some ()
  ∧ (Walkthrough.copy_cell Demo.s3 "my-bucket" (∅, [])).2.2 = Spec.copy_calls "my-bucket".
Proof.
  assert ((Walkthrough.copy_cell Demo.s3 "my-bucket" (∅, [])).1 = Some ()) as Hok.
  { vm_compute. reflexivity. }
  destruct copy_three_categories as (_ & _ & H).
  pose proof (H _ Demo.s3 ∅ "my-bucket") as H'. cbv zeta in H'.
  exact (conj Hok (proj2 H' Hok)).
Defined.

(** The claim C10 at a reference that parses to algorithm [sagemaker] and
    version [xgboost-1.2-2]: the two names are equal all the same. *)
Lemma custom_container_other_split :
  (Demo.cell Demo.other_split_uri (Demo.start ∅)).1.1
  = DockerBuild.fullname (Demo.cell Demo.other_split_uri (Demo.start ∅)).1.2
  ∧ DockerBuild.account (Demo.cell Demo.other_split_uri (Demo.start ∅)).1.2 = "123456789012"
  ∧ DockerBuild.region (Demo.cell Demo.other_split_uri (Demo.start ∅)).1.2 = "us-west-2"
  ∧ DockerBuild.algorithm (Demo.cell Demo.other_split_uri (Demo.start ∅)).1.2 = "sagemaker"
  ∧ DockerBuild.version (Demo.cell Demo.other_split_uri (Demo.start ∅)).1.2 = "xgboost-1.2-2"
  ∧ ¬ (DockerBuild.algorithm (Demo.cell Demo.other_split_uri (Demo.start ∅)).1.2
       = "sagemaker-xgboost"
       ∧ DockerBuild.version (Demo.cell Demo.other_split_uri (Demo.start ∅)).1.2
         = Walkthrough.version).
Proof. vm_compute. repeat split. intros [? _]. discriminate. Qed.

(** The two names disagree for a repository that is plainly [xgboost]. *)
Example names_can_disagree :
  (Demo.cell Demo.short_uri (Demo.start ∅)).1.1
  = "123456789012.dkr.ecr.us-west-2.amazonaws.com/custom_images/sagemaker-xgboost-1.2-2"
  ∧ DockerBuild.fullname (Demo.cell Demo.short_uri (Demo.start ∅)).1.2
    = "123456789012.dkr.ecr.us-west-2.amazonaws.com/custom_images/xgboost-1.2-2".
Proof. vm_compute. repeat split. Qed.

Lemma custom_container_agreement_witness :
  "123456789012" = DockerBuild.account (Demo.cell Demo.xgboost_uri (Demo.start ∅)).1.2
  ∧ "us-west-2" = DockerBuild.region (Demo.cell Demo.xgboost_uri (Demo.start ∅)).1.2
  ∧ DockerBuild.algorithm (Demo.cell Demo.xgboost_uri (Demo.start ∅)).1.2 = "sagemaker-xgboost"
  ∧ DockerBuild.version (Demo.cell Demo.xgboost_uri (Demo.start ∅)).1.2 = Walkthrough.version
  ∧ (Demo.cell Demo.xgboost_uri (Demo.start ∅)).1.1
    = DockerBuild.fullname (Demo.cell Demo.xgboost_uri (Demo.start ∅)).1.2.
Proof.
  assert ("123456789012" = DockerBuild.account (Demo.cell Demo.xgboost_uri (Demo.start ∅)).1.2)
    as Ha by (vm_compute; reflexivity).
  assert ("us-west-2" = DockerBuild.region (Demo.cell Demo.xgboost_uri (Demo.start ∅)).1.2)
    as Hr by (vm_compute; reflexivity).
  assert (DockerBuild.algorithm (Demo.cell Demo.xgboost_uri (Demo.start ∅)).1.2
          = "sagemaker-xgboost") as Halg by (vm_compute; reflexivity).
  assert (DockerBuild.version (Demo.cell Demo.xgboost_uri (Demo.start ∅)).1.2
          = Walkthrough.version) as Hver by (vm_compute; reflexivity).
  pose proof (custom_container_agreement Demo.exec Demo.glob Demo.echo Demo.base64_d
                ∅ ∅ "123456789012" "us-west-2" Demo.xgboost_uri) as H.
  cbv zeta in H. destruct H as (_ & H). destruct (H Ha Hr) as (_ & Himp).
  exact (conj Ha (conj Hr (conj Halg (conj Hver (Himp Halg Hver))))).
Defined.

(** * Further properties of the script and the notebook *)

(** ** Lines 13 and 14 on any reference *)










(** ** The test of line 16 on any reference *)

(** X1.  The test of line 16 succeeds exactly on the references that hold a
    slash and, somewhere after it, a colon. *)
Theorem regex_test_succeeds_iff (reference : string) :
  (Sh.rematch reference DockerBuild.regex).2 = 0
  ↔ ∃ a b c, reference = a +:+ "/" +:+ b +:+ ":" +:+ c.
Proof. apply rematch_status. Qed.

(** X2.  When the test of line 16 succeeds, the reference is some text, a
    slash, the algorithm, a colon and the version, the algorithm holds no
    slash and the version no colon; when it fails both are empty. *)
Theorem reference_recomposes (reference : string) :
  ((Sh.rematch reference DockerBuild.regex).2 = 0 →
   ∃ pre,
     reference
     = pre +:+ "/" +:+ DockerBuild.algorithm_of reference
       +:+ ":" +:+ DockerBuild.version_of reference
     ∧ Str.occurs "/" (DockerBuild.algorithm_of reference) = false
     ∧ Str.occurs ":" (DockerBuild.version_of reference) = false)
  ∧ ((Sh.rematch reference DockerBuild.regex).2 ≠ 0 →
     DockerBuild.algorithm_of reference = "" ∧ DockerBuild.version_of reference = "").
Proof.
  split.
  - intros (pre & name & tag & Hs & Hname & Htag & _ & Ha & Hv)%rematch_groups.
    exists pre. by rewrite Ha, Hv.
  - intros H. unfold DockerBuild.algorithm_of, DockerBuild.version_of, Sh.rematch in *.
    by destruct (Regex.search DockerBuild.regex reference).
Qed.

(** ** What command substitution and [tr -d] leave *)

Lemma occurs_delete_char (c : ascii) (s : string) :
  Str.occurs c (Str.delete_char c s) = false.
Proof.
  induction s as [|d s IH]; [done|]. cbn.
  destruct (decide (c = d)); [done|]. cbn. by rewrite decide_False.
Qed.

Lemma occurs_delete_char_other (c d : ascii) (s : string) :
  Str.occurs d s = false → Str.occurs d (Str.delete_char c s) = false.
Proof.
  induction s as [|e s IH]; [done|]. intros [He Hs]%occurs_cons_false. cbn.
  destruct (decide (c = e)); [by apply IH|]. cbn. rewrite decide_False by done. by apply IH.
Qed.

Lemma occurs_strip (d : ascii) (s : string) :
  Str.occurs d s = false → Str.occurs d (Str.strip_trailing_newlines s) = false.
Proof.
  induction s as [|e s IH]; [done|]. intros [He Hs]%occurs_cons_false.
  cbn [Str.strip_trailing_newlines]. specialize (IH Hs).
  destruct (Str.strip_trailing_newlines s) as [|f r].
  - destruct (decide (e = Str.newline)); [done|]. cbn. by rewrite decide_False.
  - cbn [Str.occurs]. rewrite decide_False by done. exact IH.
Qed.

Lemma strip_not_ends_with_newline (s : string) :
  Str.ends_with Str.newline (Str.strip_trailing_newlines s) = false.
Proof.
  induction s as [|c s IH]; [done|]. cbn [Str.strip_trailing_newlines].
  destruct (Str.strip_trailing_newlines s) as [|d r].
  - destruct (decide (c = Str.newline)); [done|]. cbn.
    by rewrite bool_decide_eq_false_2.
  - exact IH.
Qed.

(** The result of a command substitution holds no NUL byte and does not
    end in a newline. *)
Lemma comsub_clean (out : string) : Sh.survives_comsub (Sh.comsub out) = true.
Proof.
  unfold Sh.survives_comsub, Sh.comsub.
  rewrite occurs_strip by apply occurs_delete_char.
  by rewrite strip_not_ends_with_newline.
Qed.

Lemma comsub_idempotent (out : string) : Sh.comsub (Sh.comsub out) = Sh.comsub out.
Proof. apply comsub_survives, comsub_clean. Qed.

Lemma comsub_no_cr (out : string) :
  Str.occurs Str.cr (Sh.comsub (Str.delete_char Str.cr out)) = false.
Proof.
  unfold Sh.comsub. apply occurs_strip, occurs_delete_char_other, occurs_delete_char.
Qed.

(** One path printed on a terminal: the path, a carriage return, a
    newline. *)
Lemma comsub_terminal_line (p : string) :
  Sh.survives_comsub p = true → Str.occurs Str.cr p = false →
  Sh.comsub (Str.delete_char Str.cr (p +:+ String Str.cr (String Str.newline ""))) = p.
Proof.
  intros Hp Hcr. rewrite delete_char_app, (delete_char_absent _ _ Hcr).
  change (Str.delete_char Str.cr (String Str.cr (String Str.newline "")))
    with (String Str.newline "").
  by apply comsub_line.
Qed.

(** ** More on the runs of the script *)

Lemma ends_with_app (c : ascii) (a b : string) :
  b ≠ "" → Str.ends_with c (a +:+ b) = Str.ends_with c b.
Proof.
  intros Hb. induction a as [|d a IH]; [done|]. rewrite sapp_cons.
  cbn [Str.ends_with]. destruct (a +:+ b) eqn:Hab; [|done].
  destruct a; [|done]. by destruct b.
Qed.

Lemma plain_word_no_newline (w : string) :
  Sh.plain_word w = true → Str.ends_with Str.newline w = false.
Proof.
  intros [_ H]%andb_true_iff. induction w as [|c w IH]; [done|].
  cbn in H. apply andb_true_iff in H as [Hc H].
  apply andb_true_iff in Hc as [Hc _]. apply negb_true_iff in Hc.
  cbn [Str.ends_with]. destruct w as [|d w]; [|by apply IH].
  apply bool_decide_eq_false. intros <-. by vm_compute in Hc.
Qed.

Section MoreScriptRuns.
Import DockerBuild.
Context {Ext : Type}.
Context (exec : list string → option string → Ext → string * nat * Ext).
Context (glob : string → list string).
Context (echo : list string → string).
Context (base64_d : string → string).

Hypothesis glob_plain : ∀ w, Sh.plain_word w = true → glob w = [w].

Local Abbreviation script := (docker_build_sh exec glob echo base64_d).
Local Abbreviation build_cell := (Walkthrough.build_cell exec glob echo base64_d).

Ltac step_exec :=
  match goal with
  | |- context [exec ?a ?i ?e] =>
      let o := fresh "out" in let st := fresh "status" in let e' := fresh "ext" in
      destruct (exec a i e) as [[o st] e']
  end.

Ltac run_steps :=
  cbv beta iota zeta delta
    [Walkthrough.build_cell docker_build_sh Sh.bind Sh.run Sh.ret Sh.cat Sh.write_file
       Sh.w_log Sh.w_fs Sh.w_ext fst snd];
  repeat (first [ step_exec
                | match goal with |- context [decide ?P] => destruct (decide P) end ];
          cbv beta iota zeta delta [Sh.w_log Sh.w_fs Sh.w_ext fst snd]).

(** The run is named, executed once, and its result put back for every
    place of the goal that mentions it. *)
Ltac run_script :=
  try (let run := fresh "run" in
       let Hrun := fresh "Hrun" in
       lazymatch goal with
       | |- context [Walkthrough.build_cell exec glob ?ec ?b ?a ?r ?u ?w] =>
           remember (Walkthrough.build_cell exec glob ec b a r u w) as run eqn:Hrun
       | |- context [docker_build_sh exec glob ?ec ?b ?cwd ?args ?w] =>
           remember (docker_build_sh exec glob ec b cwd args w) as run eqn:Hrun
       end;
       revert Hrun; run_steps; intros ->);
  run_steps.

(** X6.  The image is pushed to the registry the script has just logged in
    to, under the repository it has just checked: [fullname] is the host
    of the login of line 39, a slash, and the repository name of line 42;
    and the password piped into that login is what
    [aws ecr get-login-password] printed. *)
Theorem push_target_is_checked_repository fs ext cwd args :
  let r := script cwd args (Sh.World fs ext []) in
  let v := r.1 in
  ∃ (password login check : Sh.event) (host name : string),
    Sh.w_log r.2 !! 9 = Some password
    ∧ Sh.w_log r.2 !! 10 = Some login
    ∧ Sh.w_log r.2 !! 11 = Some check
    ∧ Sh.ev_argv password = ["aws"; "ecr"; "get-login-password"; "--region"; region v]
    ∧ Sh.ev_argv login = ["docker"; "login"; "--username"; "AWS"; "--password-stdin"; host]
    ∧ Sh.ev_stdin login = Some (Sh.ev_stdout password)
    ∧ Sh.ev_argv check
      = ["aws"; "ecr"; "describe-repositories"; "--repository-names"; name]
    ∧ fullname v = host +:+ "/" +:+ name.
Proof.
  intros r v. subst v r.
  run_script.
  all: rewrite <- ?app_assoc; cbn [app].
  all: do 5 eexists.
  all: do 3 (split; [reflexivity|]).
  all: cbn [Sh.ev_argv Sh.ev_stdin Sh.ev_stdout fullname region].
  all: do 4 (split; [reflexivity|]).
  all: unfold repository_name; by rewrite !sapp_assoc.
Qed.

(** X4.  The variables set from the output of a command hold no NUL byte
    and do not end in a newline; [xgboost_path] holds no carriage return
    either.  When the search prints one path on its terminal (the path, a
    carriage return, a newline), [xgboost_path] is that path and the build
    is given its [algorithm_mode] subdirectory. *)
Theorem search_result_is_cleaned fs ext cwd args :
  let r := script cwd args (Sh.World fs ext []) in
  let v := r.1 in
  Sh.survives_comsub (region v) = true
  ∧ Sh.survives_comsub (account v) = true
  ∧ Sh.survives_comsub (xgboost_path v) = true
  ∧ Str.occurs Str.cr (xgboost_path v) = false
  ∧ ∀ (search : Sh.event) (p : string),
      Sh.w_log r.2 !! 6 = Some search →
      Sh.ev_stdout search = p +:+ String Str.cr (String Str.newline "") →
      Sh.survives_comsub p = true →
      Str.occurs Str.cr p = false →
      xgboost_path v = p
      ∧ commands (Sh.w_log r.2) !! 7
        = Some ["docker"; "build"; "--build-arg";
                "xgboost_path=" +:+ p +:+ "/algorithm_mode"; "."; "-t"; "custom_image"].
Proof.
  intros r v. subst v r.
  run_script.
  all: rewrite <- ?app_assoc; cbn [app].
  all: cbn [region account xgboost_path].
  all: do 3 (split; [apply comsub_clean|]).
  all: split; [apply comsub_no_cr|].
  all: intros search p Hs Hout Hp Hcr; cbn in Hs; simplify_eq; cbn in Hout; subst.
  all: rewrite (comsub_terminal_line p Hp Hcr); by split.
Qed.

(** X7.  For a first argument of the documented shape (a 12-character
    account that is a plain word, a region without dot, a path that holds
    no [.amazon]) the token is asked for with the account as region and as
    registry id, the login goes to the registry host of the reference, and
    the reference itself is pulled and tagged. *)
Theorem source_registry_commands fs ext cwd args account0 region0 path :
  let reference := Spec.ecr_reference account0 region0 path in
  let r := script cwd args (Sh.World fs ext []) in
  args !! 0 = Some reference →
  String.length account0 = 12 →
  Sh.plain_word account0 = true →
  Str.occurs "." region0 = false →
  Sh.survives_comsub region0 = true →
  Spec.contains ".amazon" path = false →
  reference = (account0 +:+ ".dkr.ecr." +:+ region0 +:+ ".amazonaws.com") +:+ "/" +:+ path
  ∧ take 4 (drop 2 (commands (Sh.w_log r.2)))
    = [["aws"; "ecr"; "get-authorization-token"; "--region"; account0;
        "--registry-ids"; account0; "--output"; "text"; "--query";
        "authorizationData[].authorizationToken"];
       ["docker"; "login"; "--username"; "AWS"; "--password-stdin";
        account0 +:+ ".dkr.ecr." +:+ region0 +:+ ".amazonaws.com"];
       ["docker"; "pull"; reference];
       ["docker"; "tag"; reference; "base_image"]].
Proof.
  intros reference r Harg Hlen Hplain Hdot Hsurv Hpath. subst r.
  destruct (region_of_plain_path account0 region0 path Hlen Hdot Hsurv Hpath) as (Ha & Hr & _).
  cbv zeta in Ha, Hr. fold reference in Ha, Hr.
  split.
  { unfold reference, Spec.ecr_reference. by rewrite !sapp_assoc. }
  assert (reference ≠ "") as Hne.
  { unfold reference, Spec.ecr_reference. destruct account0; [done|]. done. }
  run_script.
  all: rewrite <- ?app_assoc; cbn [app].
  all: rewrite Harg in *; cbn [default from_option id] in *; try done.
  all: cbn [commands fmap list_fmap drop take Sh.ev_argv].
  all: rewrite Ha, Hr, (unquoted_plain glob glob_plain _ Hplain); reflexivity.
Qed.

(** X8.  An empty first argument counts as none: the reference is read from
    the file.  When the file is not there either the reference is empty,
    and so are the account, the region, the algorithm and the version; the
    script pulls the empty reference and goes on to push
    [<account>.dkr.ecr.<region>.amazonaws.com/custom_images/-]. *)
Theorem no_reference_at_all fs ext cwd args :
  let r := script cwd args (Sh.World fs ext []) in
  let v := r.1 in
  (args !! 0 = Some "" →
   base_image v = Sh.comsub (default "" (fs !! Sh.resolve cwd "base_image_uri.txt")))
  ∧ (default "" (args !! 0) = "" →
     fs !! Sh.resolve cwd "base_image_uri.txt" = None →
     base_image v = ""
     ∧ base_account v = ""
     ∧ base_region v = ""
     ∧ algorithm v = ""
     ∧ version v = ""
     ∧ commands (Sh.w_log r.2) !! 4 = Some ["docker"; "pull"; ""]
     ∧ fullname v = account v +:+ ".dkr.ecr." +:+ region v +:+ ".amazonaws.com/custom_images/-"
     ∧ last (commands (Sh.w_log r.2))
       = Some (["docker"; "push"] ++ Sh.unquoted glob (fullname v))).
Proof.
  intros r v. subst v r. split.
  - intros Harg. run_script.
    all: cbn [base_image]; rewrite Harg in *; cbn in *; congruence.
  - intros Harg Hfile. run_script.
    all: rewrite <- ?app_assoc; cbn [app].
    all: cbn [base_image base_account base_region algorithm version fullname account region].
    all: try congruence.
    all: rewrite Hfile; cbn [default from_option].
    all: change (Sh.comsub "") with "".
    all: repeat split; reflexivity.
Qed.

(** X9.  From the notebook to the push: when the SDK returns a reference
    that ends in [/sagemaker-xgboost:1.2-2] and holds no NUL byte, and the
    command-line tools see the account and region the notebook sees, the
    script parses algorithm [sagemaker-xgboost] and version [1.2-2] from
    the hand-off file and pushes exactly the name the notebook hands to
    the estimator. *)
Theorem trained_image_is_pushed_image fs ext account0 region0 pre :
  let uri := pre +:+ "/sagemaker-xgboost:1.2-2" in
  let nb := build_cell account0 region0 uri (Sh.World fs ext []) in
  let v := nb.1.2 in
  Str.occurs Str.nul pre = false →
  account0 = account v →
  region0 = region v →
  base_image v = uri
  ∧ algorithm v = "sagemaker-xgboost"
  ∧ version v = "1.2-2"
  ∧ nb.1.1 = fullname v.
Proof.
  intros uri nb v Hnul. subst v nb.
  assert (Sh.comsub uri = uri) as Hcs.
  { apply comsub_survives. unfold Sh.survives_comsub, uri.
    rewrite occurs_app, Hnul, ends_with_app by done. reflexivity. }
  pose proof (rematch_shape pre "sagemaker-xgboost" "1.2-2" eq_refl eq_refl) as Hshape.
  change (pre +:+ "/" +:+ "sagemaker-xgboost" +:+ ":" +:+ "1.2-2") with uri in Hshape.
  run_script.
  all: cbn [base_image algorithm version fullname account region].
  all: try done.
  all: change (Sh.resolve "src" "base_image_uri.txt") with "src/base_image_uri.txt".
  all: rewrite lookup_insert_eq; cbn [default from_option id].
  all: rewrite Hcs, Hshape.
  all: intros -> ->.
  all: repeat split; reflexivity.
Qed.

(** A single word that is no option is printed as it is, on a line. *)
Lemma echo_word (ansicstr : string → string * bool) (w : string) :
  Sh.echo_option w = false → Sh.echo ansicstr [w] = w +:+ String Str.newline "".
Proof. intros Hw. unfold Sh.echo. cbn [Sh.echo_options]. by rewrite Hw. Qed.

(** A single word that is an option is not printed at all. *)
Lemma echo_option_alone (ansicstr : string → string * bool) (w : string) :
  Sh.echo_option w = true →
  Sh.echo ansicstr [w] = String Str.newline "" ∨ Sh.echo ansicstr [w] = "".
Proof.
  intros Hw. unfold Sh.echo. cbn [Sh.echo_options]. rewrite Hw.
  cbn [Sh.echo_options Sh.echo_words].
  destruct (Sh.display_return _); [by left | by right].
Qed.

(** X13.  The password piped into the login of line 23 is what [echo]
    prints for the decoded token without its first four characters, the
    expansion being unquoted.  When the token decodes to [AWS:] and a
    password that is a plain word, the login is given that password on a
    line exactly when the password is not a word that [echo] reads as
    options; a password such as [-n] never reaches the login. *)
Theorem source_login_password (ansicstr : string → string * bool) fs ext cwd args :
  let r := docker_build_sh exec glob (Sh.echo ansicstr) base64_d cwd args
             (Sh.World fs ext []) in
  let v := r.1 in
  ∃ (request login : Sh.event),
    Sh.w_log r.2 !! 2 = Some request
    ∧ Sh.w_log r.2 !! 3 = Some login
    ∧ token v = Sh.comsub (base64_d (Sh.comsub (Sh.ev_stdout request) +:+ String Str.newline ""))
    ∧ Sh.ev_stdin login
      = Some (Sh.echo ansicstr (Sh.unquoted glob (Str.drop 4 (token v))))
    ∧ ∀ password,
        Sh.plain_word password = true →
        Str.occurs Str.nul password = false →
        base64_d (Sh.comsub (Sh.ev_stdout request) +:+ String Str.newline "")
        = "AWS:" +:+ password →
        (Sh.ev_stdin login = Some (password +:+ String Str.newline "")
         ↔ Sh.echo_option password = false).
Proof.
  intros r v. subst v r.
  run_script.
  all: rewrite <- ?app_assoc; cbn [app].
  all: do 2 eexists.
  all: do 2 (split; [reflexivity|]).
  all: cbn [token Sh.ev_stdin Sh.ev_stdout].
  all: do 2 (split; [reflexivity|]).
  all: intros password Hplain Hnul Hdec; rewrite Hdec.
  all: assert (Sh.comsub ("AWS:" +:+ password) = "AWS:" +:+ password) as ->.
  all: try (apply comsub_survives; unfold Sh.survives_comsub;
            pose proof Hplain as [Hne Hall]%andb_true_iff; apply bool_decide_eq_true in Hne;
            rewrite occurs_app, Hnul, ends_with_app by done;
            cbn [orb negb andb Str.occurs]; apply negb_true_iff;
            by apply plain_word_no_newline).
  all: change (Str.substr_from 4 ("AWS:" +:+ password)) with password.
  all: rewrite (unquoted_plain glob glob_plain _ Hplain).
  all: destruct (Sh.echo_option password) eqn:Hopt.
  all: try (split; [done|]; intros _; by rewrite echo_word).
  all: split; [|intros ?; discriminate].
  all: intros Hin; exfalso.
  all: destruct password as [|a [|b p]]; try discriminate Hopt.
  all: by destruct (echo_option_alone ansicstr _ Hopt) as [He|He]; rewrite He in Hin.
Qed.

End MoreScriptRuns.

(** ** More on the notebook *)

Section MoreNotebook.
Import Walkthrough.

Lemma format_channel (b p c : string) :
  format "s3://{}/{}/{}/" [b; p; c] = Some ("s3://" +:+ b +:+ "/" +:+ p +:+ "/" +:+ c +:+ "/").
Proof. vm_compute. reflexivity. Qed.

Ltac run_copy s3 :=
  unfold copy_cell, data_categories, copy_category, data_key, output_key, data_filename;
  cbn [for_each]; rewrite !format_key, !format_filename;
  unfold call, Spec.copy_calls; cbn [mbind list_bind app];
  repeat (match goal with
          | |- context [s3 ?c ?st] =>
              let E := fresh "Hcall" in destruct (s3 c st) eqn:E
          end;
          cbn [fst snd app]).

(** X10.  When a call to the object store raises, the cell stops there: the
    call that failed is the last one made, the store is left as that call
    found it, and no later download or upload is attempted.  The cell ends
    normally only after all six calls. *)
Theorem copy_stops_at_first_failure
    (S3 : Type) (s3 : s3_call → S3 → option S3) (store : S3) (output_bucket : string) :
  let r := copy_cell s3 output_bucket (store, []) in
  (r.1 = None →
   ∃ made c,
     r.2.2 = made ++ [c]
     ∧ (made ++ [c]) `prefix_of` Spec.copy_calls output_bucket
     ∧ s3 c r.2.1 = None)
  ∧ (r.1 = Some () → length r.2.2 = 6).
Proof.
  intros r. subst r. run_copy s3.
  all: split; [intros H; try discriminate H | intros H; try discriminate H; try reflexivity].
  all: lazymatch goal with
       | |- ∃ made c, ?L = _ ∧ _ =>
           exists (take (length L - 1) L); eexists; cbn [length Nat.sub take app]
       end.
  all: split; [reflexivity|]; split; [by eexists|assumption].
Qed.

Lemma copy_cell_calls
    (S3 : Type) (s3 : s3_call → S3 → option S3) (store : S3) (output_bucket : string) :
  (copy_cell s3 output_bucket (store, [])).1 = Some () →
  (copy_cell s3 output_bucket (store, [])).2.2 = Spec.copy_calls output_bucket.
Proof. run_copy s3. all: intros H; first [discriminate H | reflexivity]. Qed.

(** X11.  What the later cells read is what the copy cell wrote: the two
    channels of the training job are the folders of the objects uploaded
    for "train" and "validation", the transform job reads the object
    uploaded for "test", and the file read back lies in the output folder
    of the transform job, which lies in that of the estimator. *)
Theorem jobs_read_what_was_copied
    (S3 : Type) (s3 : s3_call → S3 → option S3) (store : S3) (output_bucket : string) :
  let r := copy_cell s3 output_bucket (store, []) in
  let key c := output_prefix +:+ "/" +:+ c +:+ "/abalone." +:+ c in
  r.1 = Some () →
  ∃ train validation,
    fit_inputs output_bucket = Some [("train", train); ("validation", validation)]
    ∧ train +:+ "abalone.train" = Spec.s3_uri output_bucket (key "train")
    ∧ upload_file "abalone.train" output_bucket (key "train") ∈ r.2.2
    ∧ validation +:+ "abalone.validation" = Spec.s3_uri output_bucket (key "validation")
    ∧ upload_file "abalone.validation" output_bucket (key "validation") ∈ r.2.2
    ∧ transform_data output_bucket = Spec.s3_uri output_bucket (key "test")
    ∧ upload_file "abalone.test" output_bucket (key "test") ∈ r.2.2
    ∧ transformer_output_path output_bucket = estimator_output_path output_bucket +:+ "/results"
    ∧ results_file output_bucket
      = transformer_output_path output_bucket +:+ "/" +:+ "abalone.test" +:+ ".out".
Proof.
  intros r key Hok. subst r key. rewrite (copy_cell_calls _ _ _ _ Hok).
  unfold fit_inputs, train_input, validation_input, channel_uri.
  rewrite !format_channel. cbn [mbind option_bind].
  do 2 eexists. split; [reflexivity|].
  unfold Spec.s3_uri, transform_data, transformer_output_path, estimator_output_path,
    results_file, Spec.copy_calls.
  cbn [mbind list_bind app].
  repeat split.
  all: rewrite ?sapp_assoc; try reflexivity.
  all: repeat first [apply list_elem_of_here | apply list_elem_of_further].
Qed.

End MoreNotebook.

(** ** The further properties on concrete runs *)

Lemma regex_test_succeeds_iff_witness :
  (∃ a b c, "repo/xgboost:1" = a +:+ "/" +:+ b +:+ ":" +:+ c)
  ∧ (Sh.rematch "repo/xgboost:1" DockerBuild.regex).2 = 0.
Proof.
  assert (∃ a b c, "repo/xgboost:1" = a +:+ "/" +:+ b +:+ ":" +:+ c) as H.
  { by exists "repo", "xgboost", "1". }
  exact (conj H (proj2 (regex_test_succeeds_iff "repo/xgboost:1") H)).
Defined.

Lemma reference_recomposes_witness :
  (Sh.rematch Demo.xgboost_uri DockerBuild.regex).2 = 0
  ∧ ∃ pre,
      Demo.xgboost_uri
      = pre +:+ "/" +:+ DockerBuild.algorithm_of Demo.xgboost_uri
        +:+ ":" +:+ DockerBuild.version_of Demo.xgboost_uri
      ∧ Str.occurs "/" (DockerBuild.algorithm_of Demo.xgboost_uri) = false
      ∧ Str.occurs ":" (DockerBuild.version_of Demo.xgboost_uri) = false.
Proof.
  assert ((Sh.rematch Demo.xgboost_uri DockerBuild.regex).2 = 0) as H.
  { vm_compute. reflexivity. }
  exact (conj H (proj1 (reference_recomposes Demo.xgboost_uri) H)).
Defined.


Lemma search_result_is_cleaned_witness :
  (∃ search,
     Sh.w_log (Demo.script "" [Demo.xgboost_uri] (Demo.start ∅)).2 !! 6 = Some search
     ∧ Sh.ev_stdout search = Demo.found +:+ String Str.cr (String Str.newline ""))
  ∧ Sh.survives_comsub Demo.found = true
  ∧ Str.occurs Str.cr Demo.found = false
  ∧ DockerBuild.xgboost_path (Demo.script "" [Demo.xgboost_uri] (Demo.start ∅)).1 = Demo.found.
Proof.
  pose proof (search_result_is_cleaned Demo.exec Demo.glob Demo.echo Demo.base64_d
                ∅ ∅ "" [Demo.xgboost_uri]) as H.
  cbv zeta in H. destruct H as (_ & _ & _ & _ & H).
  assert (Sh.w_log (Demo.script "" [Demo.xgboost_uri] (Demo.start ∅)).2 !! 6
          = Some (Sh.Event ["docker"; "run"; "-t"; "base_image"; "find"; "/"; "-name";
                            "sagemaker_xgboost_container"] None
                    (Demo.found +:+ String Str.cr (String Str.newline "")) 0)) as Hs.
  { vm_compute. reflexivity. }
  assert (Sh.survives_comsub Demo.found = true) as Hp by (vm_compute; reflexivity).
  assert (Str.occurs Str.cr Demo.found = false) as Hcr by (vm_compute; reflexivity).
  split; [eexists; split; [exact Hs|reflexivity]|].
  exact (conj Hp (conj Hcr (proj1 (H _ Demo.found Hs eq_refl Hp Hcr)))).
Defined.

Lemma source_registry_commands_witness :
  ([Spec.ecr_reference "246618743249" "us-west-2" "sagemaker-xgboost:1.2-2"] : list string) !! 0
  = Some (Spec.ecr_reference "246618743249" "us-west-2" "sagemaker-xgboost:1.2-2")
  ∧ String.length "246618743249" = 12
  ∧ Sh.plain_word "246618743249" = true
  ∧ Str.occurs "." "us-west-2" = false
  ∧ Sh.survives_comsub "us-west-2" = true
  ∧ Spec.contains ".amazon" "sagemaker-xgboost:1.2-2" = false
  ∧ take 4 (drop 2 (DockerBuild.commands
       (Sh.w_log
          (Demo.script ""
             [Spec.ecr_reference "246618743249" "us-west-2" "sagemaker-xgboost:1.2-2"]
             (Demo.start ∅)).2)))
    = [["aws"; "ecr"; "get-authorization-token"; "--region"; "246618743249";
        "--registry-ids"; "246618743249"; "--output"; "text"; "--query";
        "authorizationData[].authorizationToken"];
       ["docker"; "login"; "--username"; "AWS"; "--password-stdin";
        "246618743249" +:+ ".dkr.ecr." +:+ "us-west-2" +:+ ".amazonaws.com"];
       ["docker"; "pull";
        Spec.ecr_reference "246618743249" "us-west-2" "sagemaker-xgboost:1.2-2"];
       ["docker"; "tag";
        Spec.ecr_reference "246618743249" "us-west-2" "sagemaker-xgboost:1.2-2";
        "base_image"]].
Proof.
  assert (Spec.contains ".amazon" "sagemaker-xgboost:1.2-2" = false) as Hpath.
  { vm_compute. reflexivity. }
  pose proof (source_registry_commands Demo.exec Demo.glob Demo.echo Demo.base64_d
                demo_glob_plain ∅ ∅ ""
                [Spec.ecr_reference "246618743249" "us-west-2" "sagemaker-xgboost:1.2-2"]
                "246618743249" "us-west-2" "sagemaker-xgboost:1.2-2"
                eq_refl eq_refl eq_refl eq_refl eq_refl Hpath) as [_ H].
  exact (conj eq_refl (conj eq_refl (conj eq_refl (conj eq_refl (conj eq_refl
           (conj Hpath H)))))).
Defined.

Lemma no_reference_at_all_witness :
  ([""] : list string) !! 0 = Some ""
  ∧ default "" (([""] : list string) !! 0) = ""
  ∧ (∅ : gmap string string) !! Sh.resolve "" "base_image_uri.txt" = None
  ∧ DockerBuild.base_image (Demo.script "" [""] (Demo.start ∅)).1 = ""
  ∧ DockerBuild.commands (Sh.w_log (Demo.script "" [""] (Demo.start ∅)).2) !! 4
    = Some ["docker"; "pull"; ""].
Proof.
  pose proof (no_reference_at_all Demo.exec Demo.glob Demo.echo Demo.base64_d
                ∅ ∅ "" [""]) as H.
  cbv zeta in H. destruct H as [_ H].
  destruct (H eq_refl eq_refl) as (Hb & _ & _ & _ & _ & Hpull & _).
  exact (conj eq_refl (conj eq_refl (conj eq_refl (conj Hb Hpull)))).
Defined.

Lemma trained_image_is_pushed_image_witness :
  Str.occurs Str.nul "246618743249.dkr.ecr.us-west-2.amazonaws.com" = false
  ∧ "123456789012"
    = DockerBuild.account
        (Demo.cell ("246618743249.dkr.ecr.us-west-2.amazonaws.com" +:+ "/sagemaker-xgboost:1.2-2")
           (Demo.start ∅)).1.2
  ∧ "us-west-2"
    = DockerBuild.region
        (Demo.cell ("246618743249.dkr.ecr.us-west-2.amazonaws.com" +:+ "/sagemaker-xgboost:1.2-2")
           (Demo.start ∅)).1.2
  ∧ (Demo.cell ("246618743249.dkr.ecr.us-west-2.amazonaws.com" +:+ "/sagemaker-xgboost:1.2-2")
       (Demo.start ∅)).1.1
    = DockerBuild.fullname
        (Demo.cell ("246618743249.dkr.ecr.us-west-2.amazonaws.com" +:+ "/sagemaker-xgboost:1.2-2")
           (Demo.start ∅)).1.2.
Proof.
  assert ("123456789012"
          = DockerBuild.account
              (Demo.cell ("246618743249.dkr.ecr.us-west-2.amazonaws.com"
                          +:+ "/sagemaker-xgboost:1.2-2") (Demo.start ∅)).1.2) as Ha.
  { vm_compute. reflexivity. }
  assert ("us-west-2"
          = DockerBuild.region
              (Demo.cell ("246618743249.dkr.ecr.us-west-2.amazonaws.com"
                          +:+ "/sagemaker-xgboost:1.2-2") (Demo.start ∅)).1.2) as Hr.
  { vm_compute. reflexivity. }
  pose proof (trained_image_is_pushed_image Demo.exec Demo.glob Demo.echo Demo.base64_d
                ∅ ∅ "123456789012" "us-west-2"
                "246618743249.dkr.ecr.us-west-2.amazonaws.com") as H.
  cbv zeta in H. destruct (H eq_refl Ha Hr) as (_ & _ & _ & Hname).
  exact (conj eq_refl (conj Ha (conj Hr Hname))).
Defined.

Lemma copy_stops_at_first_failure_witness :
  (Walkthrough.copy_cell Demo.s3_budget "my-bucket" (3, [])).1 = None
  ∧ ∃ made c,
      (Walkthrough.copy_cell Demo.s3_budget "my-bucket" (3, [])).2.2 = made ++ [c]
      ∧ (made ++ [c]) `prefix_of` Spec.copy_calls "my-bucket"
      ∧ Demo.s3_budget c (Walkthrough.copy_cell Demo.s3_budget "my-bucket" (3, [])).2.1 = None.
Proof.
  assert ((Walkthrough.copy_cell Demo.s3_budget "my-bucket" (3, [])).1 = None) as Hraise.
  { vm_compute. reflexivity. }
  pose proof (copy_stops_at_first_failure nat Demo.s3_budget 3 "my-bucket") as H.
  cbv zeta in H. exact (conj Hraise (proj1 H Hraise)).
Defined.

Lemma jobs_read_what_was_copied_witness :
  (Walkthrough.copy_cell Demo.s3 "my-bucket" (∅, [])).1 = Some ()
  ∧ Walkthrough.fit_inputs "my-bucket"
    = Some [("train", "s3://my-bucket/sagemaker/DEMO-xgboost-abalone-default/train/");
            ("validation", "s3://my-bucket/sagemaker/DEMO-xgboost-abalone-default/validation/")]
  ∧ Walkthrough.upload_file "abalone.test" "my-bucket"
      (Walkthrough.output_prefix +:+ "/" +:+ "test" +:+ "/abalone." +:+ "test")
    ∈ (Walkthrough.copy_cell Demo.s3 "my-bucket" (∅, [])).2.2.
Proof.
  assert ((Walkthrough.copy_cell Demo.s3 "my-bucket" (∅, [])).1 = Some ()) as Hok.
  { vm_compute. reflexivity. }
  pose proof (jobs_read_what_was_copied _ Demo.s3 ∅ "my-bucket") as H.
  cbv zeta in H. destruct (H Hok) as (t & v & Hfit & _ & _ & _ & _ & _ & Hup & _).
  split; [exact Hok|]. split; [vm_compute; reflexivity | exact Hup].
Defined.

Lemma source_login_password_witness :
  Sh.plain_word "secret" = true
  ∧ Str.occurs Str.nul "secret" = false
  ∧ Sh.echo_option "secret" = false
  ∧ ∃ login,
      Sh.w_log
        (DockerBuild.docker_build_sh Demo.exec Demo.glob (Sh.echo Demo.ansicstr)
           Demo.decoded_token "" [Demo.xgboost_uri] (Demo.start ∅)).2 !! 3 = Some login
      ∧ Sh.ev_stdin login = Some ("secret" +:+ String Str.newline "").
Proof.
  pose proof (source_login_password Demo.exec Demo.glob Demo.decoded_token
                demo_glob_plain Demo.ansicstr ∅ ∅ "" [Demo.xgboost_uri]) as H.
  cbv zeta in H. destruct H as (request & login & _ & Hlogin & _ & _ & H).
  split; [reflexivity|]. split; [reflexivity|]. split; [reflexivity|].
  exists login. split; [exact Hlogin|].
  exact (proj2 (H "secret" eq_refl eq_refl eq_refl) eq_refl).
Defined.
